(** * The chat list screen of uzzap-messenger: [app/(tabs)/index.tsx]

    A shallow embedding of the two functions of the screen that carry logic,
    [formatTimestamp] and [fetchChatrooms], together with the part of the
    JavaScript runtime they rest on, and the properties of the screen's
    specification proved (or refuted) about them. *)

From Stdlib Require Import ZArith Lia Ascii String DecimalString.
From stdpp Require Import base tactics option list strings.

Local Open Scope string_scope.

(** ** JavaScript values, numbers and completions *)

Module JS.

(** The values a [string | null] slot can hold at run time. [Undefined] is
    what an array read returns outside the array. *)
Inductive value : Type :=
| Undefined
| Null
| Str (s : string).

(** ToBoolean: [undefined], [null] and the empty string are falsy, every
    other string is truthy. *)
Definition truthy (v : value) : bool :=
  match v with
  | Undefined | Null => false
  | Str s => negb (String.eqb s "")
  end.

(** [a || b] *)
Definition or (a b : value) : value := if truthy a then a else b.

(** The numbers an index computation on arrays produces: a non-negative
    integer or NaN. *)
Inductive number : Type :=
| NaN
| Num (n : nat).

(** [i % n] on non-negative integers: NaN when the divisor is zero. *)
Definition rem (i n : nat) : number :=
  match n with
  | O => NaN
  | S _ => Num (i mod n)
  end.

(** [arr[k]] on an array of strings: [undefined] for NaN (the property
    "NaN" does not exist) and for an index past the end. *)
Definition get (arr : list string) (k : number) : value :=
  match k with
  | NaN => Undefined
  | Num i => match arr !! i with Some s => Str s | None => Undefined end
  end.

(** A thrown error object. *)
Record Error : Type := mkError { name : string; message : string }.

(** The outcome of evaluating an expression or awaiting a promise: a value,
    or a thrown error (a rejected promise). *)
Inductive completion (A : Type) : Type :=
| Normal (a : A)
| Throw (e : Error).
Arguments Normal {A} a.
Arguments Throw {A} e.

End JS.

Import JS.

(** ** The screen's data *)

(** [lastMessage.sender] of [ChatroomWithMessages]. *)
Record Sender : Type := mkSender {
  username : string;
  avatar_url : JS.value
}.

(** [lastMessage] of [ChatroomWithMessages]. *)
Record LastMessage : Type := mkLastMessage {
  content : string;
  created_at : string;
  sender : Sender
}.

(** [interface ChatroomWithMessages]; [lastMessage] is nullable. *)
Record ChatroomWithMessages : Type := mkChatroom {
  id : string;
  name : string;
  lastMessage : option LastMessage
}.

(** The joined chatroom of a membership row. *)
Record ChatroomRef : Type := mkChatroomRef {
  chatroom_id : string;
  chatroom_name : string
}.

(** One row of the membership query: [{ chatroom: { id, name } }]. *)
Record MembershipRow : Type := mkRow { chatroom : ChatroomRef }.

(** What the screen can change: its two pieces of React state and the
    console. *)
Record World : Type := mkWorld {
  loading : bool;
  chatrooms : list ChatroomWithMessages;
  console : list (string * JS.Error)
}.

(** [useState(true)], [useState([])], nothing logged. *)
Definition initial : World :=
  {| loading := true; chatrooms := []; console := [] |}.

(** The collaborators [fetchChatrooms] awaits: the membership query for a
    user id ([data] may be null) and the image service. *)
Record Env : Type := mkEnv {
  membershipQuery : option string -> completion (option (list MembershipRow));
  fetchSceneryImages : string -> completion (list string)
}.

(** ** Effects: state passing with completions *)

Definition Eff (A : Type) : Type := World -> World * completion A.

Definition ret {A} (a : A) : Eff A := fun w => (w, Normal a).

Definition bind {A B} (m : Eff A) (k : A -> Eff B) : Eff B :=
  fun w =>
    match m w with
    | (w', Normal a) => k a w'
    | (w', Throw e) => (w', Throw e)
    end.

Notation "'let!' x ':=' m 'in' k" := (bind m (fun x => k))
  (at level 10, x name, m at level 100, k at level 200).

(** [await p] for a promise whose outcome is known. *)
Definition await {A} (c : completion A) : Eff A := fun w => (w, c).

(** [try { body } catch (err) { handler } finally { finalizer }] *)
Definition try_catch_finally
    (body : Eff unit) (handler : JS.Error -> Eff unit) (finalizer : Eff unit)
  : Eff unit :=
  fun w =>
    let '(w1, r1) :=
      match body w with
      | (w', Normal a) => (w', Normal a)
      | (w', Throw e) => handler e w'
      end in
    match finalizer w1 with
    | (w2, Normal _) => (w2, r1)
    | (w2, Throw e) => (w2, Throw e)
    end.

Definition setChatrooms (l : list ChatroomWithMessages) : Eff unit :=
  fun w => ({| loading := loading w; chatrooms := l; console := console w |},
            Normal tt).

Definition setLoading (b : bool) : Eff unit :=
  fun w => ({| loading := b; chatrooms := chatrooms w; console := console w |},
            Normal tt).

(** [console.error(msg, err)] *)
Definition console_error (msg : string) (err : JS.Error) : Eff unit :=
  fun w => ({| loading := loading w; chatrooms := chatrooms w;
               console := console w ++ [(msg, err)] |},
            Normal tt).

(** ** [fetchChatrooms] *)

(** The callback of [data?.map((item, index) => ...)]. *)
Definition transformItem (unsplashImages : list string)
    (index : nat) (item : MembershipRow) : ChatroomWithMessages :=
  {| id := chatroom_id (chatroom item);
     name := chatroom_name (chatroom item);
     lastMessage := Some
       {| content := "No messages yet";
          created_at := "";
          sender :=
            {| username := "Unknown";
               avatar_url :=
                 JS.or (JS.get unsplashImages
                          (JS.rem index (length unsplashImages)))
                       Null |} |} |}.

(** [data?.map(...) || []] *)
Definition transformedData (data : option (list MembershipRow))
    (unsplashImages : list string) : list ChatroomWithMessages :=
  match data with
  | Some rows => imap (transformItem unsplashImages) rows
  | None => []
  end.

Definition fetchChatrooms (env : Env) (userId : option string) : Eff unit :=
  try_catch_finally
    (let! data := await (membershipQuery env userId) in
     let! unsplashImages := await (fetchSceneryImages env "scenery") in
     setChatrooms (transformedData data unsplashImages))
    (fun err => console_error "Error fetching chatrooms:" err)
    (setLoading false).

(** The states of the screen: the initial one and those any number of runs
    of [fetchChatrooms] lead to, whatever the collaborators answer. *)
Inductive reachable : World -> Prop :=
| reachable_initial : reachable initial
| reachable_fetch env userId w :
    reachable w -> reachable (fst (fetchChatrooms env userId w)).

(** ** The runtime's [Date]

    [formatTimestamp] builds a [Date] from the string it is given and hands
    it to the formatting library. A [Date] is its time value: milliseconds
    since 1970-01-01T00:00:00Z, or NaN for an invalid date. *)

Module Date.

Local Open Scope Z_scope.

Definition msPerSecond : Z := 1000.
Definition msPerMinute : Z := 60000.
Definition msPerHour : Z := 3600000.
Definition msPerDay : Z := 86400000.

(** Day number and time within the day of a time value. *)
Definition Day (t : Z) : Z := t / msPerDay.
Definition HourFromTime (t : Z) : Z := (t / msPerHour) mod 24.
Definition MinFromTime (t : Z) : Z := (t / msPerMinute) mod 60.

(** Year, month (1..12) and day of the month of a day number, in the
    proleptic Gregorian calendar; years are counted from March inside a
    400-year era of 146097 days. *)
Definition civil_from_days (z : Z) : Z * Z * Z :=
  let z := z + 719468 in
  let era := z / 146097 in
  let doe := z - era * 146097 in
  let yoe := (doe - doe / 1460 + doe / 36524 - doe / 146096) / 365 in
  let y := yoe + era * 400 in
  let doy := doe - (365 * yoe + yoe / 4 - yoe / 100) in
  let mp := (5 * doy + 2) / 153 in
  let d := doy - (153 * mp + 2) / 5 + 1 in
  let m := if mp <? 10 then mp + 3 else mp - 9 in
  (if m <=? 2 then y + 1 else y, m, d).

(** The day number of a calendar date, the inverse of [civil_from_days]. *)
Definition days_from_civil (y m d : Z) : Z :=
  let y := if m <=? 2 then y - 1 else y in
  let era := y / 400 in
  let yoe := y - era * 400 in
  let doy := (153 * (if 2 <? m then m - 3 else m + 9) + 2) / 5 + d - 1 in
  let doe := yoe * 365 + yoe / 4 - yoe / 100 + doy in
  era * 146097 + doe - 719468.

Definition YearFromTime (t : Z) : Z := fst (fst (civil_from_days (Day t))).
(** Months are numbered from 0, as [getMonth] does. *)
Definition MonthFromTime (t : Z) : Z := snd (fst (civil_from_days (Day t))) - 1.
Definition DateFromTime (t : Z) : Z := snd (civil_from_days (Day t)).

Definition isLeapYear (y : Z) : bool :=
  ((y mod 4 =? 0) && negb (y mod 100 =? 0)) || (y mod 400 =? 0).

(** Days of month [m] (1..12) of year [y]. *)
Definition DaysInMonth (y m : Z) : Z :=
  if m =? 2 then (if isLeapYear y then 29 else 28)
  else if (m =? 4) || (m =? 6) || (m =? 9) || (m =? 11) then 30
  else 31.

(** The time value of a calendar date and a time of day. *)
Definition civil_time (y m d h mi sec ms : Z) : Z :=
  days_from_civil y m d * msPerDay
  + h * msPerHour + mi * msPerMinute + sec * msPerSecond + ms.

(** The fields of a calendar date and a time of day that exist. *)
Definition valid_civil (y m d h mi sec ms : Z) : Prop :=
  1 <= m <= 12 /\ 1 <= d <= DaysInMonth y m /\
  0 <= h <= 23 /\ 0 <= mi <= 59 /\ 0 <= sec <= 59 /\ 0 <= ms <= 999.

(** What differs between hosts: how strings outside the standard date-time
    format are parsed ([None] is NaN), and the offset of local time from
    UTC, in milliseconds, at a given time value. *)
Record Host : Type := mkHost {
  hostParse : string -> option Z;
  LocalTZA : Z -> Z
}.

Definition LocalTime (host : Host) (t : Z) : Z := t + LocalTZA host t.

(** *** Parsing the date-time string format *)

Definition parser (A : Type) : Type := list ascii -> option (A * list ascii).

Definition digit (c : ascii) : option Z :=
  let n := Z.of_nat (nat_of_ascii c) in
  if (48 <=? n) && (n <=? 57) then Some (n - 48) else None.

(** Exactly [n] decimal digits, read as a number. *)
Fixpoint digits_from (n : nat) (acc : Z) : parser Z :=
  fun s =>
    match n with
    | O => Some (acc, s)
    | S n' =>
        match s with
        | c :: r => d ← digit c; digits_from n' (10 * acc + d) r
        | [] => None
        end
    end.
Definition digits (n : nat) : parser Z := digits_from n 0.

Definition char (c : ascii) : parser unit :=
  fun s =>
    match s with
    | c' :: r => if Ascii.eqb c c' then Some (tt, r) else None
    | [] => None
    end.

(** [YYYY-MM-DD] *)
Definition iso_date : parser (Z * Z * Z) :=
  fun s =>
    '(y, s) ← digits 4 s; '(_, s) ← char "-" s;
    '(m, s) ← digits 2 s; '(_, s) ← char "-" s;
    '(d, s) ← digits 2 s;
    Some ((y, m, d), s).

(** [.sss], or nothing: the milliseconds. *)
Definition iso_fraction : parser Z :=
  fun s =>
    match s with
    | "."%char :: r => digits 3 r
    | _ => Some (0, s)
    end.

(** [THH:mm:ss] with an optional [.sss]: the milliseconds into the day. *)
Definition iso_time : parser Z :=
  fun s =>
    '(_, s) ← char "T" s;
    '(h, s) ← digits 2 s; '(_, s) ← char ":" s;
    '(mi, s) ← digits 2 s; '(_, s) ← char ":" s;
    '(sec, s) ← digits 2 s;
    '(ms, s) ← iso_fraction s;
    if (h <=? 23) && (mi <=? 59) && (sec <=? 59)
    then Some (h * msPerHour + mi * msPerMinute + sec * msPerSecond + ms, s)
    else None.

(** [Z], [+HH:mm] or [-HH:mm]: the offset from UTC in milliseconds. *)
Definition iso_zone : parser Z :=
  fun s =>
    match s with
    | "Z"%char :: r => Some (0, r)
    | sign :: r =>
        '(h, r) ← digits 2 r; '(_, r) ← char ":" r;
        '(mi, r) ← digits 2 r;
        if (h <=? 23) && (mi <=? 59) then
          let off := h * msPerHour + mi * msPerMinute in
          if Ascii.eqb sign "+" then Some (off, r)
          else if Ascii.eqb sign "-" then Some (- off, r)
          else None
        else None
    | [] => None
    end.

(** The strings every host must parse alike: a calendar date
    [YYYY-MM-DD] (midnight UTC), or a date and a time
    [YYYY-MM-DDTHH:mm:ss(.sss)] with [Z] or a numeric offset. [None] for
    any other string, which is left to the host. *)
Definition iso_parse (str : string) : option Z :=
  '((y, m, d), s) ← iso_date (list_ascii_of_string str);
  if (1 <=? m) && (m <=? 12) && (1 <=? d) && (d <=? DaysInMonth y m) then
    let day := days_from_civil y m d in
    match s with
    | [] => Some (day * msPerDay)
    | _ =>
        '(time, s) ← iso_time s;
        '(off, s) ← iso_zone s;
        match s with
        | [] => Some (day * msPerDay + time - off)
        | _ => None
        end
    end
  else None.

(** [Date.parse(str)] *)
Definition parse (host : Host) (str : string) : option Z :=
  match iso_parse str with
  | Some t => Some t
  | None => hostParse host str
  end.

(** [new Date(v)]: the time value of the new object. A string is parsed;
    [null] converts to the number 0 and [undefined] to NaN. *)
Definition new (host : Host) (v : JS.value) : option Z :=
  match v with
  | Str str => parse host str
  | Null => Some 0
  | Undefined => None
  end.

End Date.

(** ** The formatting library: [format] of date-fns

    [format(date, pattern)] throws a RangeError on an invalid date and
    otherwise replaces each token of the pattern by a field of the date in
    the host's local time, in the default (en-US) locale. The tokens modelled
    are those of the pattern the screen uses: runs of [M], [d], [h], [m] and
    [a], and literal characters. *)

Module DateFns.

Import Date.
Local Open Scope Z_scope.

Inductive field : Type := Month | DayOfMonth | Hour12 | Minute | DayPeriod.

(** A run of [len] copies of a field's letter, or a character copied as
    it is. *)
Inductive token : Type :=
| Field (f : field) (len : nat)
| Literal (c : ascii).

Definition field_of (c : ascii) : option field :=
  if Ascii.eqb c "M" then Some Month
  else if Ascii.eqb c "d" then Some DayOfMonth
  else if Ascii.eqb c "h" then Some Hour12
  else if Ascii.eqb c "m" then Some Minute
  else if Ascii.eqb c "a" then Some DayPeriod
  else None.

Definition field_eqb (f g : field) : bool :=
  match f, g with
  | Month, Month | DayOfMonth, DayOfMonth | Hour12, Hour12
  | Minute, Minute | DayPeriod, DayPeriod => true
  | _, _ => false
  end.

(** Latin letters and the quote have a meaning of their own in a pattern. *)
Definition reserved (c : ascii) : bool :=
  let n := nat_of_ascii c in
  ((65 <=? n)%nat && (n <=? 90)%nat) || ((97 <=? n)%nat && (n <=? 122)%nat)
  || (n =? 39)%nat.

(** The tokens of a pattern: maximal runs of a field letter, and the
    characters between them. [None] for a pattern with a letter outside
    the modelled ones, or with quoted text. *)
Fixpoint tokenize (s : list ascii) : option (list token) :=
  match s with
  | [] => Some []
  | c :: r =>
      ts ← tokenize r;
      match field_of c with
      | Some f =>
          match ts with
          | Field g n :: ts' =>
              if field_eqb f g then Some (Field f (S n) :: ts')
              else Some (Field f 1 :: ts)
          | _ => Some (Field f 1 :: ts)
          end
      | None => if reserved c then None else Some (Literal c :: ts)
      end
  end.

(** The pattern of [formatTimestamp]: ['MMM d, h:mm a']. *)
Definition MMM_d_h_mm_a : list token :=
  [Field Month 3; Literal " "; Field DayOfMonth 1; Literal ","; Literal " ";
   Field Hour12 1; Literal ":"; Field Minute 2; Literal " ";
   Field DayPeriod 1].

(** [String(n)] for an integer [n >= 0]. *)
Definition decimal (n : Z) : string :=
  DecimalString.NilZero.string_of_uint (N.to_uint (Z.to_N n)).

Fixpoint zeros (n : nat) : string :=
  match n with
  | O => ""
  | S n' => String "0" (zeros n')
  end.

(** [addLeadingZeros(number, targetLength)] on a number [>= 0]. *)
Definition addLeadingZeros (number : Z) (targetLength : nat) : string :=
  let output := decimal number in
  zeros (targetLength - String.length output) +:+ output.

Definition monthsAbbreviated : list string :=
  ["Jan"; "Feb"; "Mar"; "Apr"; "May"; "Jun";
   "Jul"; "Aug"; "Sep"; "Oct"; "Nov"; "Dec"].
Definition monthsWide : list string :=
  ["January"; "February"; "March"; "April"; "May"; "June"; "July";
   "August"; "September"; "October"; "November"; "December"].
Definition monthsNarrow : list string :=
  ["J"; "F"; "M"; "A"; "M"; "J"; "J"; "A"; "S"; "O"; "N"; "D"].

(** [values[index]], the empty string when there is none (an undefined
    part is joined as the empty string). *)
Definition localize (values : list string) (index : Z) : string :=
  if index <? 0 then "" else default "" (values !! Z.to_nat index).

(** One field of a local time [lt], printed for a run of [len] letters. *)
Definition formatField (lt : Z) (f : field) (len : nat) : string :=
  match f with
  | Month =>
      let month := MonthFromTime lt in
      match len with
      | 1%nat | 2%nat => addLeadingZeros (month + 1) len
      | 3%nat => localize monthsAbbreviated month
      | 5%nat => localize monthsNarrow month
      | _ => localize monthsWide month
      end
  | DayOfMonth => addLeadingZeros (DateFromTime lt) len
  | Hour12 =>
      let h := HourFromTime lt mod 12 in
      addLeadingZeros (if h =? 0 then 12 else h) len
  | Minute => addLeadingZeros (MinFromTime lt) len
  | DayPeriod =>
      let pm := 12 <=? HourFromTime lt in
      match len with
      | 1%nat | 2%nat => if pm then "PM" else "AM"
      | 3%nat => if pm then "pm" else "am"
      | 5%nat => if pm then "p" else "a"
      | _ => if pm then "p.m." else "a.m."
      end
  end.

Definition formatToken (lt : Z) (t : token) : string :=
  match t with
  | Field f len => formatField lt f len
  | Literal c => String c ""
  end.

Definition RangeError (msg : string) : JS.Error :=
  {| JS.name := "RangeError"; JS.message := msg |}.

(** [format(date, pattern)] for a tokenized pattern. *)
Definition format (host : Host) (date : option Z) (pattern : list token)
  : completion string :=
  match date with
  | None => Throw (RangeError "Invalid time value")
  | Some t =>
      Normal (foldr (fun tok out => formatToken (LocalTime host t) tok +:+ out)
                    "" pattern)
  end.

End DateFns.

(** ** [formatTimestamp] *)

(** [try { c } catch { h }] on an expression. *)
Definition try_catch {A} (c : completion A) (h : JS.Error -> completion A)
  : completion A :=
  match c with
  | Normal a => Normal a
  | Throw e => h e
  end.

Definition formatTimestamp (host : Date.Host) (timestamp : JS.value)
  : completion string :=
  if negb (JS.truthy timestamp) then Normal ""
  else
    try_catch
      (DateFns.format host (Date.new host timestamp) DateFns.MMM_d_h_mm_a)
      (fun _ => Normal "").

(** [item.lastMessage?.created_at ?? null] *)
Definition created_at_or_null (item : ChatroomWithMessages) : JS.value :=
  match lastMessage item with
  | Some m => Str (created_at m)
  | None => Null
  end.

(** The timestamp text [renderItem] shows for a row. *)
Definition renderTimestamp (host : Date.Host) (item : ChatroomWithMessages)
  : completion string :=
  formatTimestamp host (created_at_or_null item).

(** Two hosts: one that parses nothing but the standard format and keeps
    UTC as its local time, and one like it at UTC+08:45. *)
Definition hostUTC : Date.Host :=
  {| Date.hostParse := fun _ => None; Date.LocalTZA := fun _ => 0%Z |}.
Definition hostEucla : Date.Host :=
  {| Date.hostParse := fun _ => None; Date.LocalTZA := fun _ => 31500000%Z |}.

(** ** Outcomes of a fetch, and the rows it builds *)

(** The error of a failed fetch sequence: the one the membership query
    raises, or else the one the image service raises. *)
Definition fetch_failure (env : Env) (userId : option string)
  : option JS.Error :=
  match membershipQuery env userId with
  | Throw e => Some e
  | Normal _ =>
      match fetchSceneryImages env "scenery" with
      | Throw e => Some e
      | Normal _ => None
      end
  end.

(** The sender, message and row [fetchChatrooms] makes for a chatroom, given
    the avatar. *)
Definition placeholder (avatar : JS.value) : LastMessage :=
  {| content := "No messages yet";
     created_at := "";
     sender := {| username := "Unknown"; avatar_url := avatar |} |}.

(** A row as the screen builds them: the placeholder message, with an avatar
    that is null or a non-empty string. *)
Definition built_row (c : ChatroomWithMessages) : Prop :=
  exists avatar,
    lastMessage c = Some (placeholder avatar) /\
    (avatar = Null \/ exists url, avatar = Str url /\ url <> "").

(** The avatar of the row at position [i]. *)
Definition avatar_at (l : list ChatroomWithMessages) (i : nat)
  : option JS.value :=
  c ← l !! i; m ← lastMessage c; Some (avatar_url (sender m)).

(** The identity and name of a row, and of a membership. *)
Definition row_key (c : ChatroomWithMessages) : string * string :=
  (id c, name c).
Definition membership_key (r : MembershipRow) : string * string :=
  (chatroom_id (chatroom r), chatroom_name (chatroom r)).

(** ** The short form of a timestamp *)

(** The texts a field of the short form can take. *)
Definition dayTexts : list string :=
  [
    "1"; "2"; "3"; "4"; "5"; "6"; "7"; "8"; "9"; "10"; "11"; "12"; "13";
    "14"; "15"; "16"; "17"; "18"; "19"; "20"; "21"; "22"; "23"; "24";
    "25"; "26"; "27"; "28"; "29"; "30"; "31" ].
Definition hourTexts : list string :=
  [
    "1"; "2"; "3"; "4"; "5"; "6"; "7"; "8"; "9"; "10"; "11"; "12" ].
Definition minuteTexts : list string :=
  [
    "00"; "01"; "02"; "03"; "04"; "05"; "06"; "07"; "08"; "09"; "10";
    "11"; "12"; "13"; "14"; "15"; "16"; "17"; "18"; "19"; "20"; "21";
    "22"; "23"; "24"; "25"; "26"; "27"; "28"; "29"; "30"; "31"; "32";
    "33"; "34"; "35"; "36"; "37"; "38"; "39"; "40"; "41"; "42"; "43";
    "44"; "45"; "46"; "47"; "48"; "49"; "50"; "51"; "52"; "53"; "54";
    "55"; "56"; "57"; "58"; "59" ].
Definition periodTexts : list string := ["AM"; "PM"].

(** The short form ["<Mon> <day>, <hour>:<minute> <AM|PM>"]. *)
Definition short_timestamp (out : string) : Prop :=
  exists mon day hour minute period,
    out = mon +:+ " " +:+ day +:+ ", " +:+ hour +:+ ":" +:+ minute
              +:+ " " +:+ period /\
    mon ∈ DateFns.monthsAbbreviated /\
    day ∈ dayTexts /\
    hour ∈ hourTexts /\
    minute ∈ minuteTexts /\
    period ∈ periodTexts.

(** The short form as the specification words it, for month [m] (1..12),
    day [d], hour [h] (0..23) and minute [mi]: the abbreviated month name,
    the day, the hour on the 12-hour clock, the minute on two digits and the
    day period. *)
Definition short_form (m d h mi : Z) : string :=
  default "" (DateFns.monthsAbbreviated !! Z.to_nat (m - 1)) +:+ " " +:+
  DateFns.decimal d +:+ ", " +:+
  DateFns.decimal (if (h mod 12 =? 0)%Z then 12%Z else (h mod 12)%Z) +:+ ":" +:+
  (if (mi <? 10)%Z then "0" +:+ DateFns.decimal mi else DateFns.decimal mi)
  +:+ " " +:+ (if (h <? 12)%Z then "AM" else "PM").


(** The sample timestamp of the specification, and its time value. *)
Definition sampleTimestamp : string := "2024-01-05T15:45:00Z".
Definition sampleTime : Z := 1704469500000.

(** ** Sample collaborators *)

Definition sampleRows : list MembershipRow :=
  [ {| chatroom := {| chatroom_id := "r0"; chatroom_name := "General" |} |};
    {| chatroom := {| chatroom_id := "r1"; chatroom_name := "Random" |} |};
    {| chatroom := {| chatroom_id := "r2"; chatroom_name := "Support" |} |};
    {| chatroom := {| chatroom_id := "r3"; chatroom_name := "Music" |} |};
    {| chatroom := {| chatroom_id := "r4"; chatroom_name := "Travel" |} |} ].

Definition twoImages : list string := ["https://img/0"; "https://img/1"].

Definition networkError : JS.Error :=
  {| JS.name := "TypeError"; JS.message := "Network request failed" |}.

(** Both collaborators answer. *)
Definition envOk (data : option (list MembershipRow)) (images : list string)
  : Env :=
  {| membershipQuery := fun _ => Normal data;
     fetchSceneryImages := fun _ => Normal images |}.

(** The membership query rejects. *)
Definition envQueryFails : Env :=
  {| membershipQuery := fun _ => Throw networkError;
     fetchSceneryImages := fun _ => Normal twoImages |}.

(** The membership query answers, the image service rejects. *)
Definition envImagesFail : Env :=
  {| membershipQuery := fun _ => Normal (Some sampleRows);
     fetchSceneryImages := fun _ => Throw networkError |}.

(** The membership query answers with null data, the image service
    rejects. *)
Definition envNoRowsImagesFail : Env :=
  {| membershipQuery := fun _ => Normal None;
     fetchSceneryImages := fun _ => Throw networkError |}.

(** The screen after a first, successful, load of [sampleRows]. *)
Definition loadedWorld : World :=
  fst (fetchChatrooms (envOk (Some sampleRows) twoImages) (Some "u1") initial).

(** ** Sequences of runs *)

(** One run of [fetchChatrooms]: what the collaborators answer, and the
    user id of the session. *)
Definition Run : Type := Env * option string.

(** The screen after the runs of a trace, the first run first. *)
Fixpoint runs (trace : list Run) (w : World) : World :=
  match trace with
  | [] => w
  | (env, userId) :: rest => runs rest (fst (fetchChatrooms env userId w))
  end.

(** The list a run hands to [setChatrooms], when both awaits succeed. *)
Definition run_result (r : Run) : option (list ChatroomWithMessages) :=
  match membershipQuery (fst r) (snd r) with
  | Throw _ => None
  | Normal data =>
      match fetchSceneryImages (fst r) "scenery" with
      | Throw _ => None
      | Normal unsplashImages => Some (transformedData data unsplashImages)
      end
  end.

(** The result of the last run of a trace that succeeded. *)
Fixpoint last_result (trace : list Run)
  : option (list ChatroomWithMessages) :=
  match trace with
  | [] => None
  | r :: rest =>
      match last_result rest with
      | Some l => Some l
      | None => run_result r
      end
  end.

(** The errors the failed runs of a trace raise, the first run first. *)
Definition raised_errors (trace : list Run) : list JS.Error :=
  omap (fun r => fetch_failure (fst r) (snd r)) trace.

(** The number of failed runs of a trace. *)
Fixpoint failures (trace : list Run) : nat :=
  match trace with
  | [] => 0
  | r :: rest =>
      (match run_result r with Some _ => 0 | None => 1 end) + failures rest
  end.

(** ** What the screen renders *)

(** The colours of [useTheme]. *)
Module Theme.
Record Colors : Type := mkColors {
  background : string;
  surface : string;
  text : string;
  border : string;
  gray : string
}.
End Theme.

(** An entry of a [style] prop: an entry of the style sheet, by its name,
    or an inline object. *)
Inductive Style : Type :=
| Sheet (entry : string)
| Inline (props : list (string * string)).

Local Unset Elimination Schemes.

(** The elements the screen is made of. [TouchableOpacity] carries the path
    its [onPress] handler pushes on the router; [FlatList] carries each
    item's key and rendered row. *)
Inductive Element : Type :=
| View (style : list Style) (children : list Element)
| Text (style : list Style) (numberOfLines : option nat) (child : JS.value)
| TouchableOpacity (style : list Style) (onPress : string)
    (children : list Element)
| Avatar (uri : JS.value) (username : JS.value) (size : nat) (style : Style)
| FlatList (items : list (string * Element)) (contentContainerStyle : Style).

Local Set Elimination Schemes.

(** [item.lastMessage?.sender?.avatar_url] *)
Definition sender_avatar_url (item : ChatroomWithMessages) : JS.value :=
  match lastMessage item with
  | Some m => avatar_url (sender m)
  | None => Undefined
  end.

(** [item.lastMessage?.sender?.username] *)
Definition sender_username (item : ChatroomWithMessages) : JS.value :=
  match lastMessage item with
  | Some m => Str (username (sender m))
  | None => Undefined
  end.

(** [item.lastMessage?.content] *)
Definition message_content (item : ChatroomWithMessages) : JS.value :=
  match lastMessage item with
  | Some m => Str (content m)
  | None => Undefined
  end.

(** The path of [router.push(`/chatroom/${item.id}`)]. *)
Definition chatroomPath (item : ChatroomWithMessages) : string :=
  "/chatroom/" +:+ id item.

Definition renderItem (host : Date.Host) (colors : Theme.Colors)
    (item : ChatroomWithMessages) : completion Element :=
  match renderTimestamp host item with
  | Throw e => Throw e
  | Normal timestamp =>
      Normal
        (TouchableOpacity
           [Sheet "chatItem";
            Inline [("backgroundColor", Theme.surface colors)]]
           (chatroomPath item)
           [Avatar (sender_avatar_url item)
                   (JS.or (sender_username item) (Str "Unknown"))
                   50 (Sheet "avatar");
            View [Sheet "chatInfo"]
              [View [Sheet "chatHeader"]
                 [Text [Sheet "chatName";
                        Inline [("color", Theme.text colors)]]
                       None (Str (name item));
                  Text [Sheet "timestamp"] None (Str timestamp)];
               View [Sheet "messageRow"]
                 [Text [Sheet "lastMessage";
                        Inline [("color", Theme.gray colors)]]
                       (Some 1)
                       (JS.or (message_content item)
                              (Str "No messages yet"))]]])
  end.

(** [keyExtractor] *)
Definition keyExtractor (item : ChatroomWithMessages) : string := id item.

(** The rows of the list: each item's key and its rendered row. *)
Fixpoint renderItems (host : Date.Host) (colors : Theme.Colors)
    (data : list ChatroomWithMessages)
  : completion (list (string * Element)) :=
  match data with
  | [] => Normal []
  | item :: rest =>
      match renderItem host colors item with
      | Throw e => Throw e
      | Normal row =>
          match renderItems host colors rest with
          | Throw e => Throw e
          | Normal rows => Normal ((keyExtractor item, row) :: rows)
          end
      end
  end.

(** What [ChatsScreen] returns for the state [w]. *)
Definition ChatsScreen (host : Date.Host) (colors : Theme.Colors)
    (w : World) : completion Element :=
  if loading w then
    Normal (View [Sheet "centerContainer"]
              [Text [] None (Str "Loading chats...")])
  else
    match renderItems host colors (chatrooms w) with
    | Throw e => Throw e
    | Normal rows =>
        Normal
          (View [Sheet "container";
                 Inline [("backgroundColor", Theme.background colors)]]
             [View [Sheet "header";
                    Inline [("borderBottomColor", Theme.border colors);
                            ("backgroundColor", Theme.surface colors)]]
                [Text [Sheet "title";
                       Inline [("color", Theme.text colors)]]
                      None (Str "Chats")];
              FlatList rows (Sheet "listContainer")])
    end.

(** *** Reading a rendered element *)

(** The texts an element shows, in document order. *)
Fixpoint texts (e : Element) : list JS.value :=
  match e with
  | View _ children => flat_map texts children
  | Text _ _ child => [child]
  | TouchableOpacity _ _ children => flat_map texts children
  | Avatar _ _ _ _ => []
  | FlatList items _ => flat_map (fun item => texts (snd item)) items
  end.

(** The path pressing a row pushes. *)
Definition pressTarget (e : Element) : option string :=
  match e with
  | TouchableOpacity _ path _ => Some path
  | _ => None
  end.

(** The [uri] and [username] a row hands to its avatar. *)
Definition avatarProps (e : Element) : option (JS.value * JS.value) :=
  match e with
  | TouchableOpacity _ _ (Avatar uri username _ _ :: _) =>
      Some (uri, username)
  | _ => None
  end.

(** The keys and rows of the list of a rendered screen, when it shows the
    list. *)
Definition listItems (screen : Element) : option (list (string * Element)) :=
  match screen with
  | View _ [_; FlatList items _] => Some items
  | _ => None
  end.

(** ** The life of the component *)

(** The component between two renders: its state, and the user id its
    effect last ran for ([None] before the first render). *)
Record Mounted : Type := mkMounted {
  world : World;
  lastUserId : option (option string)
}.

Definition mounting : Mounted := {| world := initial; lastUserId := None |}.

(** A render with session user id [userId], and its effects: [useCallback]
    makes a new [fetchChatrooms] when the user id is not the one of the
    previous render, and [useEffect] runs [fetchChatrooms] when it is
    new. *)
Definition render_with_effects (env : Env) (userId : option string)
    (c : Mounted) : Mounted :=
  if decide (lastUserId c = Some userId) then c
  else {| world := fst (fetchChatrooms env userId (world c));
          lastUserId := Some userId |}.

(** Successive renders, the first one first. *)
Fixpoint renders (l : list Run) (c : Mounted) : Mounted :=
  match l with
  | [] => c
  | (env, userId) :: rest => renders rest (render_with_effects env userId c)
  end.

(** Both collaborators reject, each with an error of its own. *)
Definition rateLimitError : JS.Error :=
  {| JS.name := "Error"; JS.message := "Rate limit exceeded" |}.
Definition envBothFail : Env :=
  {| membershipQuery := fun _ => Throw networkError;
     fetchSceneryImages := fun _ => Throw rateLimitError |}.

(** A theme for the examples. *)
Definition lightColors : Theme.Colors :=
  {| Theme.background := "#ffffff"; Theme.surface := "#f5f5f5";
     Theme.text := "#000000"; Theme.border := "#e0e0e0";
     Theme.gray := "#888888" |}.

(** * Properties *)

(** ** The calendar *)

Section Calendar.

Import Date.
Local Open Scope Z_scope.

Lemma era_day_range z :
  0 <= z + 719468 - (z + 719468) / 146097 * 146097 < 146097.
Proof. Z.div_mod_to_equations. lia. Qed.

Lemma year_of_era_range doe :
  0 <= doe < 146097 ->
  let yoe := (doe - doe / 1460 + doe / 36524 - doe / 146096) / 365 in
  0 <= doe - (365 * yoe + yoe / 4 - yoe / 100) < 366.
Proof. intros H yoe. subst yoe. Z.div_mod_to_equations. lia. Qed.

Lemma month_day_range doy :
  0 <= doy < 366 ->
  let mp := (5 * doy + 2) / 153 in
  0 <= mp <= 11 /\ 1 <= doy - (153 * mp + 2) / 5 + 1 <= 31.
Proof. intros H mp. subst mp. Z.div_mod_to_equations. lia. Qed.

(** Every day number has a month from 1 to 12 and a day from 1 to 31. *)
Lemma civil_from_days_range z :
  1 <= snd (fst (civil_from_days z)) <= 12 /\
  1 <= snd (civil_from_days z) <= 31.
Proof.
  unfold civil_from_days. cbv zeta.
  pose proof (era_day_range z) as Hdoe.
  set (doe := z + 719468 - (z + 719468) / 146097 * 146097) in *.
  pose proof (year_of_era_range doe Hdoe) as Hdoy. cbv zeta in Hdoy.
  set (yoe := (doe - doe / 1460 + doe / 36524 - doe / 146096) / 365) in *.
  set (doy := doe - (365 * yoe + yoe / 4 - yoe / 100)) in *.
  pose proof (month_day_range doy Hdoy) as [Hmp Hd]. cbv zeta in Hmp, Hd.
  set (mp := (5 * doy + 2) / 153) in *.
  simpl. split; [|exact Hd].
  destruct (Z.ltb_spec mp 10); lia.
Qed.

Lemma MonthFromTime_range t : 0 <= MonthFromTime t <= 11.
Proof.
  unfold MonthFromTime.
  destruct (civil_from_days_range (Day t)) as [H _]. lia.
Qed.

Lemma DateFromTime_range t : 1 <= DateFromTime t <= 31.
Proof. unfold DateFromTime. apply civil_from_days_range. Qed.

Lemma HourFromTime_range t : 0 <= HourFromTime t <= 23.
Proof.
  unfold HourFromTime. pose proof (Z.mod_pos_bound (t / msPerHour) 24). lia.
Qed.

Lemma MinFromTime_range t : 0 <= MinFromTime t <= 59.
Proof.
  unfold MinFromTime. pose proof (Z.mod_pos_bound (t / msPerMinute) 60). lia.
Qed.

(** From a month counted from March and a day of that month to the day of
    the year, and back. *)
Lemma month_round_trip mp d :
  0 <= mp <= 11 -> 1 <= d <= 31 ->
  (mp = 1 \/ mp = 3 \/ mp = 6 \/ mp = 8 -> d <= 30) ->
  (mp = 11 -> d <= 29) ->
  let doy := (153 * mp + 2) / 5 + d - 1 in
  (5 * doy + 2) / 153 = mp /\
  doy - (153 * mp + 2) / 5 + 1 = d /\
  0 <= doy <= 365 /\
  (doy = 365 -> mp = 11 /\ d = 29).
Proof.
  intros Hmp Hd H30 H29 doy. subst doy.
  assert (mp = 0 \/ mp = 1 \/ mp = 2 \/ mp = 3 \/ mp = 4 \/ mp = 5 \/
          mp = 6 \/ mp = 7 \/ mp = 8 \/ mp = 9 \/ mp = 10 \/ mp = 11)
    as Hc by lia.
  repeat destruct Hc as [->|Hc]; try subst mp;
    Z.div_mod_to_equations; lia.
Qed.

(** From a year of the era and a day of that year to the day of the era,
    and back; day 365 exists in the years that end with a 29th of
    February. *)
Lemma year_round_trip yoe doy :
  0 <= yoe <= 399 -> 0 <= doy <= 365 ->
  (doy = 365 ->
   yoe = 399 \/ ((yoe + 1) mod 4 = 0 /\ (yoe + 1) mod 100 <> 0)) ->
  let doe := yoe * 365 + yoe / 4 - yoe / 100 + doy in
  0 <= doe < 146097 /\
  (doe - doe / 1460 + doe / 36524 - doe / 146096) / 365 = yoe.
Proof.
  intros Hy Hd Hleap doe. subst doe.
  Z.div_mod_to_equations. lia.
Qed.

Lemma isLeapYear_true y :
  isLeapYear y = true ->
  (y mod 4 = 0 /\ y mod 100 <> 0) \/ y mod 400 = 0.
Proof.
  unfold isLeapYear.
  destruct (Z.eqb_spec (y mod 4) 0), (Z.eqb_spec (y mod 100) 0),
    (Z.eqb_spec (y mod 400) 0); simpl; intros; try discriminate; auto.
Qed.

Lemma DaysInMonth_bound y m d :
  1 <= m <= 12 -> 1 <= d <= DaysInMonth y m ->
  d <= 31 /\
  (m = 4 \/ m = 6 \/ m = 9 \/ m = 11 -> d <= 30) /\
  (m = 2 -> d <= 29 /\ (d = 29 -> isLeapYear y = true)).
Proof.
  intros Hm. unfold DaysInMonth.
  destruct (Z.eqb_spec m 2) as [->|H2].
  - destruct (isLeapYear y); intros; repeat split; (lia || done).
  - destruct (Z.eqb_spec m 4), (Z.eqb_spec m 6), (Z.eqb_spec m 9),
      (Z.eqb_spec m 11); simpl; intros; repeat split; lia.
Qed.

(** The calendar date of the day number of a date is that date. *)
Lemma civil_round_trip y m d :
  1 <= m <= 12 -> 1 <= d <= DaysInMonth y m ->
  civil_from_days (days_from_civil y m d) = (y, m, d).
Proof.
  intros Hm Hd.
  destruct (DaysInMonth_bound y m d Hm Hd) as (H31 & H30 & H29).
  unfold days_from_civil. cbv zeta.
  set (y' := if m <=? 2 then y - 1 else y).
  set (era := y' / 400).
  set (yoe := y' - era * 400).
  set (mp := if 2 <? m then m - 3 else m + 9).
  assert (0 <= yoe <= 399) as Hyoe
      by (subst yoe era; Z.div_mod_to_equations; lia).
  assert (0 <= mp <= 11 /\ m = (if mp <? 10 then mp + 3 else mp - 9))
    as [Hmp Hm']
      by (subst mp; destruct (Z.ltb_spec 2 m);
          [destruct (Z.ltb_spec (m - 3) 10)
          |destruct (Z.ltb_spec (m + 9) 10)]; lia).
  assert (mp = 1 \/ mp = 3 \/ mp = 6 \/ mp = 8 -> d <= 30) as Hmp30
      by (subst mp; destruct (Z.ltb_spec 2 m); lia).
  assert (mp = 11 -> m = 2) as Hfeb
      by (subst mp; destruct (Z.ltb_spec 2 m); lia).
  destruct (month_round_trip mp d Hmp ltac:(lia) Hmp30 ltac:(lia))
    as (Emp & Ed & Hdoy & Hlast).
  cbv zeta in Emp, Ed, Hdoy, Hlast.
  set (doy := (153 * mp + 2) / 5 + d - 1) in *.
  assert (doy = 365 ->
          yoe = 399 \/ ((yoe + 1) mod 4 = 0 /\ (yoe + 1) mod 100 <> 0))
    as Hleap.
  { intros [E11 E29]%Hlast.
    destruct (H29 (Hfeb E11)) as [_ Hl].
    apply isLeapYear_true in Hl; [|done].
    assert (y' = y - 1) as Ey
        by (subst y'; rewrite (Hfeb E11); reflexivity).
    subst yoe era. rewrite Ey. clear -Hl. Z.div_mod_to_equations. lia. }
  destruct (year_round_trip yoe doy Hyoe Hdoy Hleap) as (Hdoe & Eyoe).
  cbv zeta in Hdoe, Eyoe.
  set (doe := yoe * 365 + yoe / 4 - yoe / 100 + doy) in *.
  unfold civil_from_days. cbv zeta.
  replace (era * 146097 + doe - 719468 + 719468)
    with (doe + era * 146097) by lia.
  rewrite Z.div_add by lia. rewrite (Z.div_small doe) by lia.
  replace (doe + era * 146097 - (0 + era) * 146097) with doe by lia.
  rewrite Eyoe.
  replace (doe - (365 * yoe + yoe / 4 - yoe / 100)) with doy
    by (subst doe; lia).
  rewrite Emp, Ed, <- Hm'.
  f_equal. f_equal. subst yoe y'.
  destruct (Z.leb_spec m 2); lia.
Qed.

(** The fields read back from the time value of a date and a time of day
    are the fields it was made from. *)
Lemma fields_of_civil_time y m d h mi sec ms :
  valid_civil y m d h mi sec ms ->
  let t := civil_time y m d h mi sec ms in
  YearFromTime t = y /\ MonthFromTime t = m - 1 /\ DateFromTime t = d /\
  HourFromTime t = h /\ MinFromTime t = mi.
Proof.
  intros (Hm & Hd & Hh & Hmi & Hs & Hms) t.
  pose proof (civil_round_trip y m d Hm Hd) as Hrt.
  subst t. unfold YearFromTime, MonthFromTime, DateFromTime, HourFromTime,
    MinFromTime, Day, civil_time, msPerDay, msPerHour, msPerMinute,
    msPerSecond.
  set (D := days_from_civil y m d) in *.
  set (t := D * 86400000 + h * 3600000 + mi * 60000 + sec * 1000 + ms).
  assert (t / 86400000 = D) as ->.
  { symmetry. apply (Z.div_unique t 86400000 D (t - D * 86400000)); lia. }
  assert (t / 3600000 = D * 24 + h) as ->.
  { symmetry.
    apply (Z.div_unique t 3600000 _ (t - (D * 24 + h) * 3600000)); lia. }
  assert (t / 60000 = (D * 24 + h) * 60 + mi) as ->.
  { symmetry.
    apply (Z.div_unique t 60000 _ (t - ((D * 24 + h) * 60 + mi) * 60000));
      lia. }
  rewrite Hrt. simpl fst. simpl snd.
  repeat split; try lia.
  - symmetry. apply (Z.mod_unique _ 24 D h); lia.
  - symmetry. apply (Z.mod_unique _ 60 (D * 24 + h) mi); lia.
Qed.

End Calendar.

(** ** The text [format] produces *)

(** The screen's pattern, as the library splits it into tokens. *)
Lemma screen_pattern_tokens :
  DateFns.tokenize (list_ascii_of_string "MMM d, h:mm a")
    = Some DateFns.MMM_d_h_mm_a.
Proof. reflexivity. Qed.

Section FieldTexts.

Local Open Scope Z_scope.

(** A property checked on each number from [a] to [a + n - 1] holds of
    every number in that range. *)
Lemma range_check (P : Z -> Prop) `{!forall x, Decision (P x)}
    (a : Z) (n : nat) :
  bool_decide (Forall P (seqZ a (Z.of_nat n))) = true ->
  forall x, a <= x < a + Z.of_nat n -> P x.
Proof.
  intros Hall%bool_decide_eq_true x Hx.
  rewrite Forall_forall in Hall. apply Hall.
  apply elem_of_seqZ. lia.
Qed.

Lemma month_text m :
  0 <= m <= 11 ->
  DateFns.localize DateFns.monthsAbbreviated m ∈ DateFns.monthsAbbreviated.
Proof.
  intros H.
  apply (range_check
           (fun m => DateFns.localize DateFns.monthsAbbreviated m
                       ∈ DateFns.monthsAbbreviated) 0 12);
    [by vm_compute|lia].
Qed.

Lemma day_text d : 1 <= d <= 31 -> DateFns.addLeadingZeros d 1 ∈ dayTexts.
Proof.
  intros H.
  apply (range_check (fun d => DateFns.addLeadingZeros d 1 ∈ dayTexts) 1 31);
    [by vm_compute|lia].
Qed.

Lemma hour_text h :
  0 <= h <= 23 ->
  DateFns.addLeadingZeros (if h mod 12 =? 0 then 12 else h mod 12) 1
    ∈ hourTexts.
Proof.
  intros H.
  apply (range_check
           (fun h => DateFns.addLeadingZeros
                       (if h mod 12 =? 0 then 12 else h mod 12) 1
                       ∈ hourTexts) 0 24);
    [by vm_compute|lia].
Qed.

Lemma minute_text m :
  0 <= m <= 59 -> DateFns.addLeadingZeros m 2 ∈ minuteTexts.
Proof.
  intros H.
  apply (range_check
           (fun m => DateFns.addLeadingZeros m 2 ∈ minuteTexts) 0 60);
    [by vm_compute|lia].
Qed.

(** The texts of the library's fields are those of the specification's
    short form. *)
Lemma short_form_fields m d h mi :
  1 <= m <= 12 -> 1 <= d <= 31 -> 0 <= h <= 23 -> 0 <= mi <= 59 ->
  DateFns.localize DateFns.monthsAbbreviated (m - 1) +:+ " " +:+
  DateFns.addLeadingZeros d 1 +:+ ", " +:+
  DateFns.addLeadingZeros (if h mod 12 =? 0 then 12 else h mod 12) 1
  +:+ ":" +:+ DateFns.addLeadingZeros mi 2 +:+ " " +:+
  (if 12 <=? h then "PM" else "AM")
  = short_form m d h mi.
Proof.
  intros Hm Hd Hh Hmi. unfold short_form.
  f_equal; [|f_equal; f_equal;
             [|f_equal; f_equal; [|f_equal; f_equal; [|f_equal]]]].
  - unfold DateFns.localize. destruct (Z.ltb_spec (m - 1) 0); [lia|done].
  - apply (range_check
             (fun d => DateFns.addLeadingZeros d 1 = DateFns.decimal d) 1 31);
      [by vm_compute|lia].
  - apply (range_check
             (fun h => DateFns.addLeadingZeros
                         (if h mod 12 =? 0 then 12 else h mod 12) 1
                       = DateFns.decimal
                           (if h mod 12 =? 0 then 12 else h mod 12))
             0 24); [by vm_compute|lia].
  - apply (range_check
             (fun mi => DateFns.addLeadingZeros mi 2
                        = if mi <? 10 then "0" +:+ DateFns.decimal mi
                          else DateFns.decimal mi) 0 60);
      [by vm_compute|lia].
  - destruct (Z.leb_spec 12 h), (Z.ltb_spec h 12); (lia || done).
Qed.

End FieldTexts.

(** What [format] returns for the screen's pattern on a valid date, field
    by field. *)
Lemma format_fields host t :
  DateFns.format host (Some t) DateFns.MMM_d_h_mm_a =
    let lt := Date.LocalTime host t in
    Normal
      (DateFns.localize DateFns.monthsAbbreviated (Date.MonthFromTime lt)
       +:+ " " +:+ DateFns.addLeadingZeros (Date.DateFromTime lt) 1
       +:+ ", " +:+
       DateFns.addLeadingZeros
         (if (Date.HourFromTime lt mod 12 =? 0)%Z then 12%Z
          else (Date.HourFromTime lt mod 12)%Z) 1
       +:+ ":" +:+ DateFns.addLeadingZeros (Date.MinFromTime lt) 2
       +:+ " " +:+ (if (12 <=? Date.HourFromTime lt)%Z then "PM" else "AM")).
Proof.
  cbv zeta. unfold DateFns.format. f_equal.
  cbv [foldr DateFns.MMM_d_h_mm_a DateFns.formatToken DateFns.formatField].
  simpl String.append.
  by destruct (12 <=? Date.HourFromTime (Date.LocalTime host t))%Z.
Qed.

(** The text has the short form of the specification. *)
Lemma format_short_timestamp host t :
  exists out,
    DateFns.format host (Some t) DateFns.MMM_d_h_mm_a = Normal out /\
    short_timestamp out.
Proof.
  rewrite format_fields. cbv zeta. eexists. split; [reflexivity|].
  set (lt := Date.LocalTime host t).
  do 5 eexists. split; [reflexivity|].
  split; [apply month_text, MonthFromTime_range|].
  split; [apply day_text, DateFromTime_range|].
  split; [apply hour_text, HourFromTime_range|].
  split; [apply minute_text, MinFromTime_range|].
  destruct (12 <=? Date.HourFromTime lt)%Z; unfold periodTexts;
    [apply list_elem_of_further|]; apply list_elem_of_here.
Qed.

(** The text shows the month, day, hour and minute of the local time. *)
Lemma format_local_fields host t y m d h mi sec ms :
  Date.valid_civil y m d h mi sec ms ->
  Date.LocalTime host t = Date.civil_time y m d h mi sec ms ->
  DateFns.format host (Some t) DateFns.MMM_d_h_mm_a
    = Normal (short_form m d h mi).
Proof.
  intros Hv Hlt. rewrite format_fields. cbv zeta. rewrite Hlt.
  destruct (fields_of_civil_time y m d h mi sec ms Hv)
    as (_ & -> & -> & -> & ->).
  destruct Hv as (Hm & Hd & Hh & Hmi & _).
  f_equal. apply short_form_fields; try done.
  destruct (DaysInMonth_bound y m d Hm Hd) as [H31 _]. lia.
Qed.

(** ** [formatTimestamp] on blank and on valid input *)

Lemma formatTimestamp_empty host : formatTimestamp host (Str "") = Normal "".
Proof. reflexivity. Qed.

Lemma formatTimestamp_null host : formatTimestamp host Null = Normal "".
Proof. reflexivity. Qed.

Lemma truthy_Str ts : ts <> "" -> JS.truthy (Str ts) = true.
Proof. intros H. simpl. by destruct (String.eqb_spec ts ""). Qed.

(** On a string the runtime parses to a valid date, [formatTimestamp]
    returns what [format] makes of it. *)
Lemma formatTimestamp_valid host ts t :
  ts <> "" ->
  Date.parse host ts = Some t ->
  formatTimestamp host (Str ts) =
    DateFns.format host (Some t) DateFns.MMM_d_h_mm_a.
Proof.
  intros Hne Hp. unfold formatTimestamp.
  rewrite (truthy_Str ts Hne). simpl negb. cbv iota.
  unfold Date.new. rewrite Hp. reflexivity.
Qed.

(** A string of the standard format is parsed alike on every host. *)
Lemma iso_parse_parse host ts t :
  Date.iso_parse ts = Some t -> ts <> "" /\ Date.parse host ts = Some t.
Proof.
  intros Hiso. split.
  - intros ->. discriminate Hiso.
  - unfold Date.parse. by rewrite Hiso.
Qed.


(** The sample time is 15:45 on 5 January 2024. *)
Lemma sampleTime_civil : sampleTime = Date.civil_time 2024 1 5 15 45 0 0.
Proof. reflexivity. Qed.

Example formatTimestamp_sample_eucla :
  formatTimestamp hostEucla (Str sampleTimestamp) = Normal "Jan 6, 12:30 AM".
Proof. reflexivity. Qed.

Example formatTimestamp_utc_midnight :
  formatTimestamp hostUTC (Str "2024-12-25T00:05:00Z")
    = Normal "Dec 25, 12:05 AM".
Proof. reflexivity. Qed.

Example formatTimestamp_offset :
  formatTimestamp hostUTC (Str "2024-02-29T23:59:59.999-01:00")
    = Normal "Mar 1, 12:59 AM".
Proof. reflexivity. Qed.

(** ** What one run of [fetchChatrooms] does *)

Section Fetch.

Variables (env : Env) (userId : option string) (w : World).

Lemma fetchChatrooms_success data unsplashImages :
  membershipQuery env userId = Normal data ->
  fetchSceneryImages env "scenery" = Normal unsplashImages ->
  fetchChatrooms env userId w =
    ({| loading := false;
        chatrooms := transformedData data unsplashImages;
        console := console w |}, Normal tt).
Proof.
  intros Hq Hi.
  unfold fetchChatrooms, try_catch_finally, bind, await.
  by rewrite Hq, Hi.
Qed.

Lemma fetchChatrooms_failure e :
  fetch_failure env userId = Some e ->
  fetchChatrooms env userId w =
    ({| loading := false;
        chatrooms := chatrooms w;
        console := console w ++ [("Error fetching chatrooms:", e)] |},
     Normal tt).
Proof.
  unfold fetch_failure, fetchChatrooms, try_catch_finally, bind, await.
  destruct (membershipQuery env userId) as [data|e1].
  - destruct (fetchSceneryImages env "scenery") as [imgs|e2];
      intros [= <-]; reflexivity.
  - intros [= <-]. reflexivity.
Qed.

(** A run either replaces the list by the transformed data or keeps it. *)
Lemma fetchChatrooms_chatrooms :
  (exists data unsplashImages,
      membershipQuery env userId = Normal data /\
      fetchSceneryImages env "scenery" = Normal unsplashImages /\
      chatrooms (fst (fetchChatrooms env userId w))
        = transformedData data unsplashImages) \/
  (exists e, fetch_failure env userId = Some e /\
      chatrooms (fst (fetchChatrooms env userId w)) = chatrooms w).
Proof.
  destruct (membershipQuery env userId) as [data|e1] eqn:Hq.
  - destruct (fetchSceneryImages env "scenery") as [imgs|e2] eqn:Hi.
    + left. exists data, imgs. by rewrite (fetchChatrooms_success data imgs).
    + right. exists e2.
      assert (fetch_failure env userId = Some e2) as Hf
          by (unfold fetch_failure; by rewrite Hq, Hi).
      by rewrite (fetchChatrooms_failure e2 Hf).
  - right. exists e1.
    assert (fetch_failure env userId = Some e1) as Hf
        by (unfold fetch_failure; by rewrite Hq).
    by rewrite (fetchChatrooms_failure e1 Hf).
Qed.

End Fetch.

(** ** The avatar of a transformed row *)

Lemma or_null_cases (v : JS.value) :
  JS.or v Null = Null \/
  exists url, v = Str url /\ url <> "" /\ JS.or v Null = Str url.
Proof.
  destruct v as [| |s]; [by left..|].
  unfold JS.or, JS.truthy.
  destruct (String.eqb_spec s "") as [->|Hne]; simpl.
  - by left.
  - right. by exists s.
Qed.

Lemma rem_nonzero (i n : nat) : n <> 0 -> JS.rem i n = Num (i mod n).
Proof. by destruct n. Qed.

Lemma get_Str_lookup (arr : list string) (k : JS.number) (url : string) :
  JS.get arr k = Str url -> exists i, k = Num i /\ arr !! i = Some url.
Proof.
  destruct k as [|i]; simpl; [done|].
  destruct (arr !! i) as [s|] eqn:E; [|done].
  intros [= ->]. by exists i.
Qed.

Lemma transformItem_lastMessage unsplashImages index item :
  lastMessage (transformItem unsplashImages index item) =
    Some (placeholder
            (JS.or (JS.get unsplashImages
                      (JS.rem index (length unsplashImages))) Null)).
Proof. reflexivity. Qed.

(** The avatar is null, or a non-empty string of the batch. *)
Lemma transformItem_avatar unsplashImages index item :
  exists avatar,
    lastMessage (transformItem unsplashImages index item)
      = Some (placeholder avatar) /\
    (avatar = Null \/
     exists url, avatar = Str url /\ url <> "" /\ url ∈ unsplashImages).
Proof.
  eexists. split; [apply transformItem_lastMessage|].
  destruct (or_null_cases
              (JS.get unsplashImages (JS.rem index (length unsplashImages))))
    as [->|(url & Hget & Hne & ->)]; [by left|].
  right. exists url. repeat split; [done|].
  apply get_Str_lookup in Hget as (i & _ & Hi).
  by apply list_elem_of_lookup_2 in Hi.
Qed.

Lemma transformedData_rows data unsplashImages c :
  c ∈ transformedData data unsplashImages ->
  exists index item, c = transformItem unsplashImages index item.
Proof.
  destruct data as [rows|]; simpl.
  - intros (i & item & -> & _)%elem_of_lookup_imap. eauto.
  - by intros ?%not_elem_of_nil.
Qed.

Lemma transformedData_built data unsplashImages :
  Forall built_row (transformedData data unsplashImages).
Proof.
  apply Forall_forall. intros c (index & item & ->)%transformedData_rows.
  destruct (transformItem_avatar unsplashImages index item)
    as (avatar & Hm & [->|(url & -> & Hne & _)]).
  - exists Null. split; [done|by left].
  - exists (Str url). split; [done|]. right. by exists url.
Qed.

(** Every row of every reachable state is one the screen built. *)
Lemma reachable_built w : reachable w -> Forall built_row (chatrooms w).
Proof.
  induction 1 as [|env userId w Hw IH].
  - constructor.
  - destruct (fetchChatrooms_chatrooms env userId w)
      as [(data & imgs & _ & _ & ->)|(e & _ & ->)].
    + apply transformedData_built.
    + exact IH.
Qed.

Lemma loadedWorld_reachable : reachable loadedWorld.
Proof. apply reachable_fetch, reachable_initial. Qed.

Lemma transformedData_keys rows unsplashImages :
  row_key <$> transformedData (Some rows) unsplashImages
    = membership_key <$> rows.
Proof.
  simpl. rewrite fmap_imap. rewrite <- (imap_const membership_key).
  by apply imap_ext.
Qed.

(** ** C1: a failed fetch *)

(** C1, as the specification states it, does not hold: after a failed fetch
    the chat list is not always empty. A screen that has loaded five
    chatrooms and whose next membership query rejects still holds the five
    rows. *)
Lemma fetch_failure_keeps_stale_list :
  ~ (forall env userId w e,
        reachable w ->
        fetch_failure env userId = Some e ->
        chatrooms (fst (fetchChatrooms env userId w)) = []).
Proof.
  intros H.
  specialize (H envQueryFails (Some "u2") loadedWorld networkError
                loadedWorld_reachable eq_refl).
  vm_compute in H. discriminate H.
Qed.

(** C1, amended: when the fetch sequence fails (the membership query or the
    image service raises an error [e]), the error is caught and logged, the
    loading flag is cleared, and the chat list is left exactly as it was
    before the run; it is empty afterwards only if it was empty before. *)
Theorem fetch_failure_leaves_list env userId w e :
  fetch_failure env userId = Some e ->
  let w' := fst (fetchChatrooms env userId w) in
  snd (fetchChatrooms env userId w) = Normal tt /\
  console w' = (console w ++ [("Error fetching chatrooms:", e)])%list /\
  chatrooms w' = chatrooms w /\
  loading w' = false.
Proof.
  intros Hf. rewrite (fetchChatrooms_failure env userId w e Hf). by simpl.
Qed.

Lemma fetch_failure_leaves_list_witness :
  fetch_failure envImagesFail (Some "u2") = Some networkError /\
  chatrooms (fst (fetchChatrooms envImagesFail (Some "u2") loadedWorld))
    = chatrooms loadedWorld /\
  length (chatrooms loadedWorld) = 5.
Proof.
  split; [reflexivity|]. split; [|reflexivity].
  apply (fetch_failure_leaves_list envImagesFail (Some "u2") loadedWorld
           networkError eq_refl).
Defined.

(** ** C2: an empty image batch *)

(** C2: when the image service returns an empty batch, the run completes
    normally, builds one row per membership, and the avatar of every row is
    null; the remainder by the batch size 0 is NaN, reading the array at NaN
    gives undefined, and [undefined || null] is null. *)
Theorem empty_batch_avatars_null env userId w data :
  membershipQuery env userId = Normal data ->
  fetchSceneryImages env "scenery" = Normal [] ->
  let w' := fst (fetchChatrooms env userId w) in
  snd (fetchChatrooms env userId w) = Normal tt /\
  length (chatrooms w') = length (default [] data) /\
  forall c, c ∈ chatrooms w' ->
    exists m, lastMessage c = Some m /\ avatar_url (sender m) = Null.
Proof.
  intros Hq Hi. rewrite (fetchChatrooms_success env userId w data [] Hq Hi).
  simpl. split; [done|]. split.
  - destruct data as [rows|]; simpl; [apply length_imap|done].
  - intros c (index & item & ->)%transformedData_rows.
    eexists. split; [apply transformItem_lastMessage|]. reflexivity.
Qed.

Lemma empty_batch_avatars_null_witness :
  chatrooms (fst (fetchChatrooms (envOk (Some sampleRows) []) None initial))
    <> [] /\
  forall c,
    c ∈ chatrooms (fst (fetchChatrooms (envOk (Some sampleRows) []) None initial)) ->
    exists m, lastMessage c = Some m /\ avatar_url (sender m) = Null.
Proof.
  split; [discriminate|].
  apply (empty_batch_avatars_null (envOk (Some sampleRows) []) None initial
           (Some sampleRows) eq_refl eq_refl).
Defined.

(** ** C3: the short form *)




(** ** C4: cyclic avatars *)

(** C4, as stated, does not hold for every batch: an image that is the
    empty string is not assigned, the avatar is null instead. *)
Lemma avatar_not_always_the_image :
  ~ (forall rows images i item,
        images <> [] ->
        rows !! i = Some item ->
        exists url,
          images !! (i mod length images) = Some url /\
          avatar_at (transformedData (Some rows) images) i = Some (Str url)).
Proof.
  intros H.
  destruct (H [ {| chatroom := {| chatroom_id := "r0";
                                  chatroom_name := "General" |} |} ]
              [""] 0 _ ltac:(discriminate) eq_refl) as (url & _ & Hav).
  vm_compute in Hav. discriminate Hav.
Qed.

(** C4, amended: for a membership list and a non-empty batch of [m] images,
    the row at position [i] gets the image at index [i mod m] as its avatar
    when that image is a non-empty string, and null when it is the empty
    string. *)
Theorem avatar_is_cyclic (rows : list MembershipRow) (images : list string)
    (i : nat) (item : MembershipRow) :
  images <> [] ->
  rows !! i = Some item ->
  exists url,
    images !! (i mod length images) = Some url /\
    avatar_at (transformedData (Some rows) images) i =
      Some (if String.eqb url "" then Null else Str url).
Proof.
  intros Hne Hi.
  assert (i mod length images < length images) as Hlt.
  { apply Nat.mod_upper_bound. by destruct images. }
  destruct (lookup_lt_is_Some_2 _ _ Hlt) as [url Hurl].
  exists url. split; [done|].
  unfold avatar_at, transformedData. rewrite list_lookup_imap, Hi. simpl.
  f_equal. rewrite rem_nonzero by (by destruct images).
  unfold JS.get. rewrite Hurl. unfold JS.or, JS.truthy.
  by destruct (String.eqb url "").
Qed.

Lemma avatar_is_cyclic_witness :
  twoImages <> [] /\
  twoImages !! (4 mod length twoImages) = Some "https://img/0" /\
  avatar_at (transformedData (Some sampleRows) twoImages) 4
    = Some (Str "https://img/0").
Proof.
  split; [discriminate|].
  destruct (avatar_is_cyclic sampleRows twoImages 4
              {| chatroom := {| chatroom_id := "r4";
                                chatroom_name := "Travel" |} |}
              ltac:(discriminate) eq_refl) as (url & Hurl & Hav).
  injection Hurl as <-. split; [reflexivity|exact Hav].
Defined.

(** Two images over five memberships: the images used are 0,1,0,1,0. *)
Example avatar_indices_two_over_five :
  (fun i => avatar_at (transformedData (Some sampleRows) twoImages) i)
    <$> [0; 1; 2; 3; 4]
  = (fun k => Str <$> twoImages !! k) <$> [0; 1; 0; 1; 0].
Proof. reflexivity. Qed.

(** ** C5: nothing to format *)

(** C5: on every host, [formatTimestamp] returns the empty string for null,
    for the empty string and for every string the runtime cannot parse to a
    date, and it returns normally, without throwing, on every input. *)
Theorem formatTimestamp_blank_never_throws host :
  formatTimestamp host Null = Normal "" /\
  formatTimestamp host (Str "") = Normal "" /\
  (forall ts, Date.parse host ts = None ->
     formatTimestamp host (Str ts) = Normal "") /\
  (forall timestamp, exists out, formatTimestamp host timestamp = Normal out).
Proof.
  split; [reflexivity|]. split; [reflexivity|]. split.
  - intros ts Hp. unfold formatTimestamp.
    destruct (JS.truthy (Str ts)); [|reflexivity].
    simpl negb. cbv iota. unfold Date.new. rewrite Hp. reflexivity.
  - intros timestamp. unfold formatTimestamp.
    destruct (JS.truthy timestamp); simpl negb; cbv iota; [|by eexists].
    destruct (Date.new host timestamp) as [t|]; by eexists.
Qed.

Lemma formatTimestamp_blank_never_throws_witness :
  Date.parse hostUTC "not-a-date" = None /\
  formatTimestamp hostUTC (Str "not-a-date") = Normal "".
Proof.
  split; [reflexivity|].
  destruct (formatTimestamp_blank_never_throws hostUTC) as (_ & _ & H & _).
  exact (H "not-a-date" eq_refl).
Defined.

(** ** C6: one row per membership, in order *)

(** C6, as stated, does not hold whatever the image service does: when
    the membership query returns null data and the image service then
    rejects, a screen that has loaded five chatrooms still holds the five
    rows, so the chat list is not empty. *)
Lemma no_rows_with_failed_images_keep_list :
  ~ (forall env userId w data,
        reachable w ->
        membershipQuery env userId = Normal data ->
        let w' := fst (fetchChatrooms env userId w) in
        (forall rows, data = Some rows ->
           length (chatrooms w') = length rows /\
           row_key <$> chatrooms w' = membership_key <$> rows) /\
        (data = None \/ data = Some [] -> chatrooms w' = []) /\
        loading w' = false).
Proof.
  intros H.
  destruct (H envNoRowsImagesFail (Some "u2") loadedWorld None
              loadedWorld_reachable eq_refl) as (_ & Hempty & _).
  specialize (Hempty (or_introl eq_refl)).
  vm_compute in Hempty. discriminate Hempty.
Qed.

(** C6, amended: when the membership query and the image service both
    answer, the chat list has exactly one row per membership record, with
    the ids and names of the records in the order the backend returned
    them; when moreover the membership data is null or has no rows the chat
    list is empty; and loading has ended. *)
Theorem chat_list_follows_memberships env userId w data unsplashImages :
  membershipQuery env userId = Normal data ->
  fetchSceneryImages env "scenery" = Normal unsplashImages ->
  let w' := fst (fetchChatrooms env userId w) in
  (forall rows, data = Some rows ->
     length (chatrooms w') = length rows /\
     row_key <$> chatrooms w' = membership_key <$> rows) /\
  (data = None \/ data = Some [] -> chatrooms w' = []) /\
  loading w' = false.
Proof.
  intros Hq Hi.
  rewrite (fetchChatrooms_success env userId w data unsplashImages Hq Hi).
  simpl. split; [|split; [|done]].
  - intros rows ->. split; [apply length_imap|apply transformedData_keys].
  - by intros [->| ->].
Qed.

Lemma chat_list_follows_memberships_witness :
  length (chatrooms loadedWorld) = 5 /\
  row_key <$> chatrooms loadedWorld = membership_key <$> sampleRows.
Proof.
  destruct (chat_list_follows_memberships
              (envOk (Some sampleRows) twoImages) (Some "u1") initial
              (Some sampleRows) twoImages eq_refl eq_refl) as (H & _ & _).
  exact (H sampleRows eq_refl).
Defined.

(** ** C7: the loading flag *)

(** C7: every run of the fetch sequence, whatever the two collaborators
    answer or raise, completes normally, so no exception escapes it, and
    leaves the loading flag false. *)
Theorem loading_always_cleared env userId w :
  snd (fetchChatrooms env userId w) = Normal tt /\
  loading (fst (fetchChatrooms env userId w)) = false.
Proof.
  unfold fetchChatrooms, try_catch_finally, bind, await.
  destruct (membershipQuery env userId) as [data|e1];
    [destruct (fetchSceneryImages env "scenery") as [imgs|e2]|];
    by simpl.
Qed.

(** ** C8: the placeholder message *)

(** C8: every row of every state the screen can reach has a last message,
    and it is the placeholder: content "No messages yet", an empty
    [created_at] and sender name "Unknown". *)
Theorem lastMessage_is_placeholder w c :
  reachable w ->
  c ∈ chatrooms w ->
  exists m,
    lastMessage c = Some m /\
    content m = "No messages yet" /\
    created_at m = "" /\
    username (sender m) = "Unknown".
Proof.
  intros Hw Hc.
  pose proof (reachable_built w Hw) as Hall.
  rewrite Forall_forall in Hall.
  destruct (Hall c Hc) as (avatar & Hm & _).
  exists (placeholder avatar). by rewrite Hm.
Qed.

Lemma lastMessage_is_placeholder_witness :
  exists c m,
    chatrooms loadedWorld !! 0 = Some c /\
    lastMessage c = Some m /\
    content m = "No messages yet" /\
    created_at m = "" /\
    username (sender m) = "Unknown".
Proof.
  eexists.
  destruct (lastMessage_is_placeholder loadedWorld
              (transformItem twoImages 0
                 {| chatroom := {| chatroom_id := "r0";
                                   chatroom_name := "General" |} |})
              loadedWorld_reachable) as (m & Hm).
  - apply list_elem_of_here.
  - exists m. split; [reflexivity|exact Hm].
Defined.

(** ** C9: the avatar is null or a non-empty string *)

(** C9: in every row of every state the screen can reach, the sender's
    avatar is neither undefined nor the empty string: it is null or a
    non-empty string; and in the rows a successful run builds, a string
    avatar is one of the images of the batch that run fetched. *)
Theorem avatar_null_or_truthy :
  (forall w c m,
      reachable w -> c ∈ chatrooms w -> lastMessage c = Some m ->
      avatar_url (sender m) <> Undefined /\
      avatar_url (sender m) <> Str "" /\
      (avatar_url (sender m) = Null \/
       exists url, avatar_url (sender m) = Str url /\ JS.truthy (Str url) = true)) /\
  (forall env userId w data unsplashImages c m,
      membershipQuery env userId = Normal data ->
      fetchSceneryImages env "scenery" = Normal unsplashImages ->
      c ∈ chatrooms (fst (fetchChatrooms env userId w)) ->
      lastMessage c = Some m ->
      avatar_url (sender m) = Null \/
      exists url, avatar_url (sender m) = Str url /\ url ∈ unsplashImages).
Proof.
  split.
  - intros w c m Hw Hc Hm.
    pose proof (reachable_built w Hw) as Hall.
    rewrite Forall_forall in Hall.
    destruct (Hall c Hc) as (avatar & Hm' & Hav).
    rewrite Hm in Hm'. injection Hm' as ->. simpl.
    destruct Hav as [->|(url & -> & Hne)].
    + repeat split; [done|done|by left].
    + repeat split; [done|congruence|].
      right. exists url. split; [done|]. simpl.
      by destruct (String.eqb_spec url "").
  - intros env userId w data imgs c m Hq Hi Hc Hm.
    rewrite (fetchChatrooms_success env userId w data imgs Hq Hi) in Hc.
    simpl in Hc. apply transformedData_rows in Hc as (index & item & ->).
    destruct (transformItem_avatar imgs index item)
      as (avatar & Hm' & Hav).
    rewrite Hm in Hm'. injection Hm' as ->. simpl.
    destruct Hav as [->|(url & -> & _ & Hin)]; [by left|].
    right. by exists url.
Qed.

Lemma avatar_null_or_truthy_witness :
  exists c m,
    chatrooms loadedWorld !! 1 = Some c /\
    lastMessage c = Some m /\
    avatar_url (sender m) <> Undefined /\
    avatar_url (sender m) <> Str "".
Proof.
  eexists. eexists. split; [reflexivity|]. split; [reflexivity|].
  destruct avatar_null_or_truthy as [H _].
  destruct (H loadedWorld _ _ loadedWorld_reachable
              ltac:(apply list_elem_of_further, list_elem_of_here) eq_refl)
    as (H1 & H2 & _).
  split; [exact H1|exact H2].
Defined.

(** ** C10: the timestamp of a row *)

(** C10: for every row of every state the screen can reach, on every host,
    [formatTimestamp] applied to the row's [lastMessage.created_at] is the
    empty string, so the timestamp [renderItem] shows is always empty. *)
Theorem rendered_timestamp_empty host w c :
  reachable w ->
  c ∈ chatrooms w ->
  renderTimestamp host c = Normal "" /\
  forall m, lastMessage c = Some m ->
    formatTimestamp host (Str (created_at m)) = Normal "".
Proof.
  intros Hw Hc.
  pose proof (reachable_built w Hw) as Hall.
  rewrite Forall_forall in Hall.
  destruct (Hall c Hc) as (avatar & Hm & _).
  unfold renderTimestamp, created_at_or_null. rewrite Hm. simpl.
  split; [apply formatTimestamp_empty|].
  intros m [= <-]. apply formatTimestamp_empty.
Qed.

Lemma rendered_timestamp_empty_witness :
  renderTimestamp hostUTC
    (transformItem twoImages 0
       {| chatroom := {| chatroom_id := "r0"; chatroom_name := "General" |} |})
  = Normal "".
Proof.
  destruct (rendered_timestamp_empty hostUTC loadedWorld
              (transformItem twoImages 0
                 {| chatroom := {| chatroom_id := "r0";
                                   chatroom_name := "General" |} |})
              loadedWorld_reachable ltac:(apply list_elem_of_here))
    as [H _].
  exact H.
Defined.

(** * Further properties of the screen *)

Local Open Scope list_scope.

(** ** Sequences of runs of [fetchChatrooms] *)


(** A run that succeeds stores its result and logs nothing. *)
Lemma fetchChatrooms_result env userId w l :
  run_result (env, userId) = Some l ->
  fst (fetchChatrooms env userId w) =
    {| loading := false; chatrooms := l; console := console w |}.
Proof.
  unfold run_result. simpl.
  destruct (membershipQuery env userId) as [data|e1] eqn:Hq; [|done].
  destruct (fetchSceneryImages env "scenery") as [imgs|e2] eqn:Hi; [|done].
  intros [= <-]. by rewrite (fetchChatrooms_success env userId w data imgs).
Qed.

(** A run that fails keeps the list and logs one error. *)
Lemma fetchChatrooms_no_result env userId w :
  run_result (env, userId) = None ->
  exists e,
    fst (fetchChatrooms env userId w) =
      {| loading := false; chatrooms := chatrooms w;
         console := console w ++ [("Error fetching chatrooms:", e)] |}.
Proof.
  unfold run_result. simpl. intros Hr.
  assert (exists e, fetch_failure env userId = Some e) as [e He].
  { unfold fetch_failure.
    destruct (membershipQuery env userId) as [data|e1]; [|by eexists].
    destruct (fetchSceneryImages env "scenery") as [imgs|e2];
      [done|by eexists]. }
  exists e. by rewrite (fetchChatrooms_failure env userId w e He).
Qed.

(** The reachable states are those a trace of runs leads to from the
    initial state. *)
Lemma runs_app trace1 trace2 w :
  runs (trace1 ++ trace2) w = runs trace2 (runs trace1 w).
Proof.
  revert w. induction trace1 as [|[env userId] rest IH]; intros w; simpl.
  - reflexivity.
  - apply IH.
Qed.

Lemma reachable_runs w :
  reachable w <-> exists trace, w = runs trace initial.
Proof.
  split.
  - induction 1 as [|env userId w Hw [trace ->]].
    + by exists [].
    + exists (trace ++ [(env, userId)]). by rewrite runs_app.
  - intros [trace ->].
    assert (forall w0, reachable w0 -> reachable (runs trace w0)) as H.
    { induction trace as [|[env userId] rest IH]; intros w0 Hw0; simpl.
      - exact Hw0.
      - apply IH. by apply reachable_fetch. }
    apply H, reachable_initial.
Qed.

(** After any sequence of runs the chat list is the result of the last run
    that succeeded, and the list the sequence started from when none did:
    failed runs never change it, and a successful run replaces it whole. *)
Theorem runs_show_last_result trace w :
  chatrooms (runs trace w) = default (chatrooms w) (last_result trace).
Proof.
  revert w. induction trace as [|[env userId] rest IH]; intros w; simpl.
  - reflexivity.
  - rewrite IH. destruct (last_result rest) as [l|]; [reflexivity|]. simpl.
    destruct (run_result (env, userId)) as [l|] eqn:Hr.
    + by rewrite (fetchChatrooms_result env userId w l Hr).
    + destruct (fetchChatrooms_no_result env userId w Hr) as [e ->].
      reflexivity.
Qed.

Lemma run_result_fetch_failure env userId :
  match run_result (env, userId) with
  | Some _ => fetch_failure env userId = None
  | None => exists e, fetch_failure env userId = Some e
  end.
Proof.
  unfold run_result, fetch_failure. simpl.
  destruct (membershipQuery env userId) as [data|e1]; [|by eexists].
  destruct (fetchSceneryImages env "scenery") as [imgs|e2];
    [done|by eexists].
Qed.

(** The console gets exactly one entry for each failed run, in the order of
    the runs, made of the message "Error fetching chatrooms:" and the error
    that run raised, and none for a successful run. *)
Theorem runs_log_each_failure trace w :
  console (runs trace w) =
    console w ++
    ((fun e => ("Error fetching chatrooms:", e)) <$> raised_errors trace) /\
  length (raised_errors trace) = failures trace.
Proof.
  revert w. induction trace as [|[env userId] rest IH]; intros w.
  - simpl. by rewrite app_nil_r.
  - destruct (IH (fst (fetchChatrooms env userId w))) as [Hc Hlen].
    change (runs ((env, userId) :: rest) w)
      with (runs rest (fst (fetchChatrooms env userId w))).
    rewrite Hc. unfold raised_errors in *. simpl omap. simpl failures.
    pose proof (run_result_fetch_failure env userId) as Hr.
    destruct (run_result (env, userId)) as [l|] eqn:Hres.
    + rewrite Hr. rewrite (fetchChatrooms_result env userId w l Hres).
      simpl. by split.
    + destruct Hr as [e He]. rewrite He.
      rewrite (fetchChatrooms_failure env userId w e He). simpl.
      rewrite <- app_assoc. simpl. split; [reflexivity|].
      f_equal. exact Hlen.
Qed.

(** When the membership query rejects, the error logged is the query's and
    the run is the same whatever the image service would answer: the image
    service is awaited only after the query has answered. *)
Theorem query_failure_hides_images env env' userId w e :
  membershipQuery env userId = Throw e ->
  membershipQuery env' userId = Throw e ->
  fetchChatrooms env userId w = fetchChatrooms env' userId w /\
  console (fst (fetchChatrooms env userId w)) =
    console w ++ [("Error fetching chatrooms:", e)].
Proof.
  intros Hq Hq'.
  assert (fetch_failure env userId = Some e) as Hf
      by (unfold fetch_failure; by rewrite Hq).
  assert (fetch_failure env' userId = Some e) as Hf'
      by (unfold fetch_failure; by rewrite Hq').
  rewrite (fetchChatrooms_failure env userId w e Hf),
    (fetchChatrooms_failure env' userId w e Hf').
  by simpl.
Qed.

Lemma query_failure_hides_images_witness :
  fetchChatrooms envQueryFails None loadedWorld =
    fetchChatrooms envBothFail None loadedWorld /\
  console (fst (fetchChatrooms envBothFail None loadedWorld)) =
    [("Error fetching chatrooms:", networkError)].
Proof.
  destruct (query_failure_hides_images envBothFail envQueryFails None
              loadedWorld networkError eq_refl eq_refl) as [H1 H2].
  split; [by rewrite H1|exact H2].
Defined.




(** ** How the images are shared out *)

Lemma avatar_at_transformed rows unsplashImages i item :
  rows !! i = Some item ->
  avatar_at (transformedData (Some rows) unsplashImages) i =
    Some (JS.or (JS.get unsplashImages
                   (JS.rem i (length unsplashImages))) Null).
Proof.
  intros Hi. unfold avatar_at, transformedData.
  by rewrite list_lookup_imap, Hi.
Qed.

Lemma rem_add_period i m : JS.rem (i + m) m = JS.rem i m.
Proof.
  destruct m as [|m']; [reflexivity|].
  unfold JS.rem. f_equal.
  replace (i + S m') with (i + 1 * S m') by lia.
  apply Nat.Div0.mod_add.
Qed.

(** The avatars repeat with the size of the batch as their period: with
    more chatrooms than images, the rows at positions [i] and
    [i + images.length] get the same avatar (null twice if the batch is
    empty). *)
Theorem avatars_repeat_with_period rows unsplashImages i a b :
  rows !! i = Some a ->
  rows !! (i + length unsplashImages) = Some b ->
  avatar_at (transformedData (Some rows) unsplashImages) i =
    avatar_at (transformedData (Some rows) unsplashImages)
      (i + length unsplashImages).
Proof.
  intros Ha Hb.
  rewrite (avatar_at_transformed rows unsplashImages i a Ha),
    (avatar_at_transformed rows unsplashImages _ b Hb).
  by rewrite rem_add_period.
Qed.

Lemma avatars_repeat_with_period_witness :
  avatar_at (transformedData (Some sampleRows) twoImages) 1 =
    avatar_at (transformedData (Some sampleRows) twoImages) 3 /\
  avatar_at (transformedData (Some sampleRows) twoImages) 1 =
    Some (Str "https://img/1").
Proof.
  split; [|reflexivity].
  apply (avatars_repeat_with_period sampleRows twoImages 1
           {| chatroom := {| chatroom_id := "r1"; chatroom_name := "Random" |} |}
           {| chatroom := {| chatroom_id := "r3"; chatroom_name := "Music" |} |}
           eq_refl eq_refl).
Defined.

(** Below the size of the batch nothing wraps: the row at position [i] gets
    the image at position [i]. *)
Lemma avatar_at_no_wrap rows unsplashImages i item url :
  rows !! i = Some item ->
  unsplashImages !! i = Some url ->
  url <> "" ->
  avatar_at (transformedData (Some rows) unsplashImages) i = Some (Str url).
Proof.
  intros Hi Hurl Hne.
  rewrite (avatar_at_transformed rows unsplashImages i item Hi). f_equal.
  assert (i < length unsplashImages) as Hlt by (by eapply lookup_lt_Some).
  rewrite rem_nonzero by lia. rewrite Nat.mod_small by lia.
  unfold JS.get. rewrite Hurl. unfold JS.or. by rewrite truthy_Str.
Qed.

(** When the batch holds at least as many images as there are chatrooms,
    and its images are non-empty and all different, then every chatroom
    gets the image at its own position and no two chatrooms share an
    avatar. *)
Theorem enough_images_distinct_avatars rows unsplashImages :
  length rows <= length unsplashImages ->
  NoDup unsplashImages ->
  (forall url, url ∈ unsplashImages -> url <> "") ->
  (forall i item, rows !! i = Some item ->
     exists url,
       unsplashImages !! i = Some url /\
       avatar_at (transformedData (Some rows) unsplashImages) i
         = Some (Str url)) /\
  (forall i j a b,
     rows !! i = Some a -> rows !! j = Some b ->
     avatar_at (transformedData (Some rows) unsplashImages) i =
       avatar_at (transformedData (Some rows) unsplashImages) j ->
     i = j).
Proof.
  intros Hlen Hnd Hne.
  assert (forall i item, rows !! i = Some item ->
            exists url,
              unsplashImages !! i = Some url /\
              avatar_at (transformedData (Some rows) unsplashImages) i
                = Some (Str url)) as Hown.
  { intros i item Hi.
    assert (i < length unsplashImages) as Hlt
        by (apply lookup_lt_Some in Hi; lia).
    destruct (lookup_lt_is_Some_2 _ _ Hlt) as [url Hurl].
    exists url. split; [done|].
    apply (avatar_at_no_wrap rows unsplashImages i item url Hi Hurl).
    apply Hne. by eapply list_elem_of_lookup_2. }
  split; [exact Hown|].
  intros i j a b Ha Hb Heq.
  destruct (Hown i a Ha) as (ui & Hui & Hai).
  destruct (Hown j b Hb) as (uj & Huj & Haj).
  rewrite Hai, Haj in Heq. injection Heq as <-.
  by eapply NoDup_lookup.
Qed.

Lemma enough_images_distinct_avatars_witness :
  avatar_at (transformedData (Some (take 2 sampleRows)) twoImages) 0
    = Some (Str "https://img/0") /\
  avatar_at (transformedData (Some (take 2 sampleRows)) twoImages) 1
    = Some (Str "https://img/1").
Proof.
  destruct (enough_images_distinct_avatars (take 2 sampleRows) twoImages)
    as [Hown _].
  - simpl. lia.
  - apply (bool_decide_unpack _). by vm_compute.
  - intros url Hurl ->. revert Hurl. apply (bool_decide_unpack _).
    by vm_compute.
  - destruct (Hown 0 _ eq_refl) as (u0 & [= <-] & H0).
    destruct (Hown 1 _ eq_refl) as (u1 & [= <-] & H1).
    split; [exact H0|exact H1].
Defined.

(** ** The text of a timestamp is empty or of the short form *)

Lemma short_timestamp_not_empty out : short_timestamp out -> out <> "".
Proof.
  intros (mon & day & hour & minute & period & -> & Hmon & _) Hempty.
  destruct mon as [|c mon]; [|discriminate Hempty].
  revert Hmon. apply (bool_decide_unpack _). by vm_compute.
Qed.

(** On every host and for every input, [formatTimestamp] returns normally,
    and what it returns is either the empty string or a text of the short
    form; it is the empty string exactly when the input is falsy (null,
    undefined or the empty string) or is not parsed to a valid date. *)
Theorem formatTimestamp_empty_or_short host timestamp :
  exists out,
    formatTimestamp host timestamp = Normal out /\
    (out = "" \/ short_timestamp out) /\
    (out = "" <->
     JS.truthy timestamp = false \/ Date.new host timestamp = None).
Proof.
  unfold formatTimestamp.
  destruct (JS.truthy timestamp) eqn:Ht; simpl negb; cbv iota.
  - destruct (Date.new host timestamp) as [t|] eqn:Hd.
    + destruct (format_short_timestamp host t) as (out & -> & Hshort).
      exists out. split; [reflexivity|]. split; [by right|].
      split.
      * intros ->. by apply short_timestamp_not_empty in Hshort.
      * by intros [?|?].
    + exists "". split; [reflexivity|]. split; [by left|].
      split; [by right|done].
  - exists "". split; [reflexivity|]. split; [by left|].
    split; [by left|done].
Qed.

Lemma formatTimestamp_normal host timestamp :
  exists out, formatTimestamp host timestamp = Normal out.
Proof.
  unfold formatTimestamp.
  destruct (JS.truthy timestamp); simpl negb; cbv iota; [|by eexists].
  destruct (Date.new host timestamp) as [t|]; by eexists.
Qed.

(** ** [renderItem] *)

(** [v || d] for a non-empty default [d] is a non-empty string: [v] itself
    when it is one, and [d] otherwise. *)
Lemma or_default (v : JS.value) (d : string) :
  d <> "" ->
  exists s,
    JS.or v (Str d) = Str s /\ s <> "" /\
    (v = Str s \/ (JS.truthy v = false /\ s = d)).
Proof.
  intros Hd. unfold JS.or.
  destruct (JS.truthy v) eqn:Ht.
  - destruct v as [| |s]; [done..|]. exists s. split; [done|].
    split; [|by left]. intros ->. discriminate Ht.
  - exists d. split; [done|]. split; [done|]. by right.
Qed.

(** On every host and for every item, [renderItem] returns a row: pressing
    it pushes "/chatroom/" followed by the item's id; it shows the item's
    name, a timestamp text and a preview, in this order; the preview and the
    username handed to the avatar are never empty, being "No messages yet"
    and "Unknown" when the item has no last message or an empty content or
    username; and without a last message the timestamp is empty and the
    avatar has no uri. *)
Theorem renderItem_fallbacks host colors item :
  exists row timestamp preview uname,
    renderItem host colors item = Normal row /\
    pressTarget row = Some ("/chatroom/" +:+ id item) /\
    texts row = [Str (name item); Str timestamp; Str preview] /\
    avatarProps row = Some (sender_avatar_url item, Str uname) /\
    preview <> "" /\ uname <> "" /\
    (forall m, lastMessage item = Some m ->
       (content m <> "" -> preview = content m) /\
       (content m = "" -> preview = "No messages yet") /\
       (username (sender m) <> "" -> uname = username (sender m)) /\
       (username (sender m) = "" -> uname = "Unknown")) /\
    (lastMessage item = None ->
       timestamp = "" /\ preview = "No messages yet" /\ uname = "Unknown" /\
       sender_avatar_url item = Undefined).
Proof.
  destruct (formatTimestamp_normal host (created_at_or_null item))
    as [timestamp Hts].
  destruct (or_default (message_content item) "No messages yet")
    as (preview & Hp & Hpne & Hpc); [done|].
  destruct (or_default (sender_username item) "Unknown")
    as (uname & Hu & Hune & Huc); [done|].
  exists (TouchableOpacity
            [Sheet "chatItem";
             Inline [("backgroundColor", Theme.surface colors)]]
            (chatroomPath item)
            [Avatar (sender_avatar_url item) (Str uname) 50 (Sheet "avatar");
             View [Sheet "chatInfo"]
               [View [Sheet "chatHeader"]
                  [Text [Sheet "chatName";
                         Inline [("color", Theme.text colors)]]
                        None (Str (name item));
                   Text [Sheet "timestamp"] None (Str timestamp)];
                View [Sheet "messageRow"]
                  [Text [Sheet "lastMessage";
                         Inline [("color", Theme.gray colors)]]
                        (Some 1) (Str preview)]]]),
    timestamp, preview, uname.
  split; [unfold renderItem, renderTimestamp; by rewrite Hts, Hp, Hu|].
  do 5 (split; [done|]).
  split.
  - intros m Hm. unfold message_content, sender_username in *.
    rewrite Hm in *.
    destruct Hpc as [[= ->]|[Htp ->]], Huc as [[= ->]|[Htu ->]];
      repeat split; try done; intros H; simpl in *;
      try (rewrite (proj2 (String.eqb_neq _ _) H) in *; discriminate);
      try (by rewrite H in * ).
  - intros Hnone. unfold message_content, sender_username, sender_avatar_url,
      created_at_or_null in *. rewrite Hnone in *.
    unfold formatTimestamp in Hts. simpl in Hts. injection Hts as <-.
    destruct Hpc as [?|[_ ->]]; [done|].
    destruct Huc as [?|[_ ->]]; [done|]. done.
Qed.

(** The id can be read back from the path a row pushes. *)
Lemma chatroomPath_injective a b :
  chatroomPath a = chatroomPath b -> id a = id b.
Proof. unfold chatroomPath. simpl. intros [= H]. exact H. Qed.

Lemma renderItem_pressTarget host colors item row :
  renderItem host colors item = Normal row ->
  pressTarget row = Some (chatroomPath item).
Proof.
  unfold renderItem. destruct (renderTimestamp host item); [|done].
  by intros [= <-].
Qed.

(** ** [ChatsScreen] *)

Lemma renderItem_normal host colors item :
  exists row, renderItem host colors item = Normal row.
Proof.
  unfold renderItem, renderTimestamp.
  destruct (formatTimestamp_normal host (created_at_or_null item))
    as [timestamp ->].
  by eexists.
Qed.

(** The rows of the list are the rendered items, in the order of the data,
    each under its item's id as key. *)
Lemma renderItems_rows host colors data :
  exists rows,
    renderItems host colors data = Normal rows /\
    fst <$> rows = id <$> data /\
    forall i item, data !! i = Some item ->
      exists row,
        rows !! i = Some (id item, row) /\
        renderItem host colors item = Normal row.
Proof.
  induction data as [|item rest (rows & Hrows & Hkeys & Hrow)]; simpl.
  - exists []. split; [done|]. split; [done|]. intros i item Hi.
    by rewrite lookup_nil in Hi.
  - destruct (renderItem_normal host colors item) as [row Hr].
    rewrite Hr, Hrows. exists ((keyExtractor item, row) :: rows).
    split; [done|]. split; [by rewrite !fmap_cons, Hkeys|].
    intros [|i] item' Hi; simpl in Hi.
    + injection Hi as <-. by exists row.
    + apply (Hrow i item' Hi).
Qed.

(** The list of a state that is not loading. *)
Lemma ChatsScreen_rows_aux host colors w :
  loading w = false ->
  exists screen items,
    ChatsScreen host colors w = Normal screen /\
    listItems screen = Some items /\
    fst <$> items = id <$> chatrooms w /\
    forall i item, chatrooms w !! i = Some item ->
      exists row,
        items !! i = Some (id item, row) /\
        renderItem host colors item = Normal row.
Proof.
  intros Hl. unfold ChatsScreen. rewrite Hl.
  destruct (renderItems_rows host colors (chatrooms w))
    as (rows & -> & Hkeys & Hrow).
  eexists. exists rows. by repeat split.
Qed.

(** In every state, on every host, [ChatsScreen] returns normally. While
    loading it shows the text "Loading chats..." and no list; otherwise it
    shows the title "Chats" first and a list whose rows are the rendered
    chatrooms of the state, one each, in the order of the state, keyed by
    their ids. *)
Theorem ChatsScreen_loading_or_list host colors w :
  exists screen,
    ChatsScreen host colors w = Normal screen /\
    (loading w = true ->
       texts screen = [Str "Loading chats..."] /\ listItems screen = None) /\
    (loading w = false ->
       head (texts screen) = Some (Str "Chats") /\
       exists items,
         listItems screen = Some items /\
         fst <$> items = id <$> chatrooms w /\
         forall i item, chatrooms w !! i = Some item ->
           exists row,
             items !! i = Some (id item, row) /\
             renderItem host colors item = Normal row).
Proof.
  unfold ChatsScreen. destruct (loading w).
  - eexists. split; [reflexivity|]. split; [done|]. intros [=].
  - destruct (renderItems_rows host colors (chatrooms w))
      as (rows & -> & Hkeys & Hrow).
    eexists. split; [reflexivity|]. split; [intros [=]|]. intros _.
    split; [reflexivity|]. by exists rows.
Qed.

(** The texts of a row the screen built: the name, an empty timestamp and
    the placeholder. *)
Lemma renderItem_built host colors item :
  built_row item ->
  exists row,
    renderItem host colors item = Normal row /\
    pressTarget row = Some ("/chatroom/" +:+ id item) /\
    texts row = [Str (name item); Str ""; Str "No messages yet"] /\
    exists avatar, avatarProps row = Some (avatar, Str "Unknown").
Proof.
  intros (avatar & Hm & _).
  unfold renderItem, renderTimestamp, created_at_or_null, message_content,
    sender_username, sender_avatar_url.
  rewrite Hm. cbn [created_at placeholder].
  rewrite formatTimestamp_empty.
  eexists. split; [reflexivity|]. split; [reflexivity|].
  split; [reflexivity|]. by eexists.
Qed.

Lemma renderItems_texts host colors data rows :
  Forall built_row data ->
  renderItems host colors data = Normal rows ->
  flat_map (fun item => texts (snd item)) rows =
    flat_map (fun c => [Str (name c); Str ""; Str "No messages yet"]) data.
Proof.
  intros Hall. revert rows.
  induction Hall as [|item rest Hitem Hrest IH]; intros rows; simpl.
  - by intros [= <-].
  - destruct (renderItem_built host colors item Hitem)
      as (row & -> & _ & Htexts & _).
    destruct (renderItems host colors rest) as [rows'|e]; [|done].
    intros [= <-]. simpl. by rewrite Htexts, (IH rows').
Qed.

(** What the user reads once the first run has completed, in every state
    the screen can reach: the title "Chats", then for each chatroom of the
    state its name, an empty timestamp and "No messages yet"; no error text
    is ever shown. *)
Theorem screen_texts_after_loading host colors w :
  reachable w ->
  loading w = false ->
  exists screen,
    ChatsScreen host colors w = Normal screen /\
    texts screen =
      Str "Chats" ::
      flat_map (fun c => [Str (name c); Str ""; Str "No messages yet"])
               (chatrooms w).
Proof.
  intros Hw Hl. unfold ChatsScreen. rewrite Hl.
  destruct (renderItems_rows host colors (chatrooms w))
    as (rows & Hrows & _).
  rewrite Hrows. eexists. split; [reflexivity|]. simpl.
  rewrite app_nil_r. f_equal.
  apply (renderItems_texts host colors (chatrooms w) rows);
    [by apply reachable_built|done].
Qed.

Lemma screen_texts_after_loading_witness :
  exists screen,
    ChatsScreen hostUTC lightColors loadedWorld = Normal screen /\
    take 4 (texts screen) =
      [Str "Chats"; Str "General"; Str ""; Str "No messages yet"].
Proof.
  destruct (screen_texts_after_loading hostUTC lightColors loadedWorld
              loadedWorld_reachable eq_refl) as (screen & Hs & Ht).
  exists screen. split; [exact Hs|]. by rewrite Ht.
Defined.

(** ** From the fetch to the screen *)

(** After a run in which both collaborators answer, the screen lists the
    memberships in the backend's order: the row at position [i] has the
    chatroom's id as its key, shows the chatroom's name, an empty timestamp
    and "No messages yet", hands "Unknown" to the avatar as username, and
    pushes "/chatroom/" followed by the chatroom's id when pressed. *)
Theorem screen_after_load host colors env userId w rows unsplashImages :
  membershipQuery env userId = Normal (Some rows) ->
  fetchSceneryImages env "scenery" = Normal unsplashImages ->
  exists screen items,
    ChatsScreen host colors (fst (fetchChatrooms env userId w))
      = Normal screen /\
    listItems screen = Some items /\
    fst <$> items = (fun r => chatroom_id (chatroom r)) <$> rows /\
    forall i r, rows !! i = Some r ->
      exists row avatar,
        items !! i = Some (chatroom_id (chatroom r), row) /\
        pressTarget row = Some ("/chatroom/" +:+ chatroom_id (chatroom r)) /\
        texts row =
          [Str (chatroom_name (chatroom r)); Str ""; Str "No messages yet"] /\
        avatarProps row = Some (avatar, Str "Unknown").
Proof.
  intros Hq Hi.
  rewrite (fetchChatrooms_success env userId w (Some rows) unsplashImages
             Hq Hi). simpl fst.
  destruct (ChatsScreen_rows_aux host colors
              {| loading := false;
                 chatrooms := transformedData (Some rows) unsplashImages;
                 console := console w |} eq_refl)
    as (screen & items & Hs & Hitems & Hkeys & Hrow).
  exists screen, items. split; [exact Hs|]. split; [exact Hitems|].
  simpl chatrooms in Hkeys, Hrow. split.
  - rewrite Hkeys. simpl. rewrite fmap_imap.
    rewrite <- (imap_const (fun r => chatroom_id (chatroom r))).
    by apply imap_ext.
  - intros i r Hr.
    assert (transformedData (Some rows) unsplashImages !! i
            = Some (transformItem unsplashImages i r)) as Hc
        by (simpl; by rewrite list_lookup_imap, Hr).
    destruct (Hrow i _ Hc) as (row & Hrowi & Hrender).
    assert (built_row (transformItem unsplashImages i r)) as Hb.
    { pose proof (transformedData_built (Some rows) unsplashImages) as Hall.
      rewrite Forall_forall in Hall. apply Hall.
      by eapply list_elem_of_lookup_2. }
    destruct (renderItem_built host colors _ Hb)
      as (row' & Hrender' & Hpress & Htexts & avatar & Hav).
    rewrite Hrender in Hrender'. injection Hrender' as <-.
    exists row, avatar. by repeat split.
Qed.

Lemma screen_after_load_witness :
  exists screen items,
    ChatsScreen hostUTC lightColors loadedWorld = Normal screen /\
    listItems screen = Some items /\
    fst <$> items = ["r0"; "r1"; "r2"; "r3"; "r4"].
Proof.
  destruct (screen_after_load hostUTC lightColors
              (envOk (Some sampleRows) twoImages) (Some "u1") initial
              sampleRows twoImages eq_refl eq_refl)
    as (screen & items & Hs & Hitems & Hkeys & _).
  exists screen, items. by repeat split.
Defined.

(** A failed run changes nothing of what is shown: once loading has ended,
    the screen after a failed run is the screen before it, so the failure
    is visible in the console only. *)
Theorem failed_refresh_is_invisible host colors env userId w e :
  loading w = false ->
  fetch_failure env userId = Some e ->
  ChatsScreen host colors (fst (fetchChatrooms env userId w))
    = ChatsScreen host colors w.
Proof.
  intros Hl Hf. rewrite (fetchChatrooms_failure env userId w e Hf).
  unfold ChatsScreen. simpl. by rewrite Hl.
Qed.

Lemma failed_refresh_is_invisible_witness :
  ChatsScreen hostUTC lightColors
    (fst (fetchChatrooms envImagesFail (Some "u2") loadedWorld))
  = ChatsScreen hostUTC lightColors loadedWorld.
Proof.
  apply (failed_refresh_is_invisible hostUTC lightColors envImagesFail
           (Some "u2") loadedWorld networkError eq_refl eq_refl).
Defined.

(** When the first run fails, the loading text gives way to the title
    "Chats" over an empty list: nothing tells the user of the failure. *)
Theorem first_load_failure_shows_empty_list host colors env userId e :
  fetch_failure env userId = Some e ->
  exists screen,
    ChatsScreen host colors (fst (fetchChatrooms env userId initial))
      = Normal screen /\
    texts screen = [Str "Chats"] /\
    listItems screen = Some [].
Proof.
  intros Hf. rewrite (fetchChatrooms_failure env userId initial e Hf).
  eexists. split; [reflexivity|]. by split.
Qed.

Lemma first_load_failure_shows_empty_list_witness :
  exists screen,
    ChatsScreen hostUTC lightColors
      (fst (fetchChatrooms envQueryFails None initial)) = Normal screen /\
    texts screen = [Str "Chats"].
Proof.
  destruct (first_load_failure_shows_empty_list hostUTC lightColors
              envQueryFails None networkError eq_refl)
    as (screen & Hs & Ht & _).
  by exists screen.
Defined.

(** ** The life of the component *)

Lemma render_same_user env userId c :
  lastUserId c = Some userId -> render_with_effects env userId c = c.
Proof.
  intros H. unfold render_with_effects. by rewrite decide_True.
Qed.

Lemma render_first env userId :
  render_with_effects env userId mounting =
    {| world := fst (fetchChatrooms env userId initial);
       lastUserId := Some userId |}.
Proof.
  unfold render_with_effects.
  destruct (decide (lastUserId mounting = Some userId)) as [H|H];
    [discriminate H|reflexivity].
Qed.

Lemma renders_same_user envs userId c :
  lastUserId c = Some userId ->
  renders ((fun env => (env, userId)) <$> envs) c = c.
Proof.
  intros H. induction envs as [|env rest IH]; simpl; [done|].
  by rewrite (render_same_user env userId c H).
Qed.

(** While the user id of the session stays the same, the component fetches
    once: after the first render and any number of further renders with
    that user id, whatever the collaborators would answer by then, the
    state is the one the first run left. *)
Theorem one_fetch_while_user_unchanged env0 envs userId :
  world (renders ((env0, userId) :: ((fun env => (env, userId)) <$> envs))
           mounting)
  = fst (fetchChatrooms env0 userId initial).
Proof.
  change (renders ((env0, userId) :: ((fun env => (env, userId)) <$> envs))
            mounting)
    with (renders ((fun env => (env, userId)) <$> envs)
            (render_with_effects env0 userId mounting)).
  rewrite (render_first env0 userId).
  by rewrite renders_same_user.
Qed.

(** Every state the mounted component goes through is a state of the
    screen: a render either leaves the state as it is or runs
    [fetchChatrooms] once with the user id of that render. *)
Lemma mounted_world_reachable l : reachable (world (renders l mounting)).
Proof.
  assert (forall c, reachable (world c) -> reachable (world (renders l c)))
    as H; [|apply H, reachable_initial].
  induction l as [|[env userId] rest IH]; intros c Hc; simpl; [done|].
  apply IH. unfold render_with_effects.
  destruct (decide (lastUserId c = Some userId)); [done|].
  simpl. by apply reachable_fetch.
Qed.

(** When the user id of the session changes and the run for the new user
    fails, the rows of the previous user stay on the screen: the list is
    not cleared when the identity changes, only replaced when a run
    succeeds. *)
Theorem user_change_failure_keeps_rows host colors env userId c e :
  lastUserId c <> Some userId ->
  loading (world c) = false ->
  fetch_failure env userId = Some e ->
  lastUserId (render_with_effects env userId c) = Some userId /\
  chatrooms (world (render_with_effects env userId c))
    = chatrooms (world c) /\
  ChatsScreen host colors (world (render_with_effects env userId c))
    = ChatsScreen host colors (world c).
Proof.
  intros Hne Hl Hf. unfold render_with_effects.
  rewrite decide_False by done. simpl.
  rewrite (fetchChatrooms_failure env userId (world c) e Hf). simpl.
  split; [done|]. split; [done|].
  unfold ChatsScreen. simpl. by rewrite Hl.
Qed.

Lemma user_change_failure_keeps_rows_witness :
  id <$> chatrooms
           (world (renders [(envOk (Some sampleRows) twoImages, Some "u1");
                            (envQueryFails, None)] mounting))
  = ["r0"; "r1"; "r2"; "r3"; "r4"].
Proof.
  destruct (user_change_failure_keeps_rows hostUTC lightColors envQueryFails
              None
              (render_with_effects (envOk (Some sampleRows) twoImages)
                 (Some "u1") mounting)
              networkError ltac:(discriminate) eq_refl eq_refl)
    as (_ & Hrows & _).
  simpl renders. rewrite Hrows. reflexivity.
Defined.

(** In the list of a state that is not loading, two rows push the same
    path when pressed exactly when they have the same key: a row always
    opens the chatroom it is keyed by. *)
Theorem rows_navigate_by_key host colors w screen items i j ki kj ri rj :
  loading w = false ->
  ChatsScreen host colors w = Normal screen ->
  listItems screen = Some items ->
  items !! i = Some (ki, ri) ->
  items !! j = Some (kj, rj) ->
  pressTarget ri = Some ("/chatroom/" +:+ ki) /\
  (pressTarget ri = pressTarget rj <-> ki = kj).
Proof.
  intros Hl Hs Hitems Hi Hj.
  destruct (ChatsScreen_rows_aux host colors w Hl)
    as (screen' & items' & Hs' & Hitems' & Hkeys & Hrow).
  rewrite Hs in Hs'. injection Hs' as <-.
  rewrite Hitems in Hitems'. injection Hitems' as <-.
  assert (forall n k r, items !! n = Some (k, r) ->
            pressTarget r = Some ("/chatroom/" +:+ k)) as Hpress.
  { intros n k r Hn.
    assert (is_Some (chatrooms w !! n)) as [item Hitem].
    { apply lookup_lt_is_Some.
      rewrite <- (length_fmap id), <- Hkeys, length_fmap.
      by eapply lookup_lt_Some. }
    destruct (Hrow n item Hitem) as (row & Hrown & Hrender).
    rewrite Hn in Hrown. injection Hrown as -> ->.
    by apply (renderItem_pressTarget host colors item). }
  rewrite (Hpress i ki ri Hi), (Hpress j kj rj Hj).
  split; [done|]. split.
  - simpl. intros [= H]. exact H.
  - by intros ->.
Qed.

Lemma rows_navigate_by_key_witness :
  exists screen items r0 r1,
    ChatsScreen hostUTC lightColors loadedWorld = Normal screen /\
    listItems screen = Some items /\
    items !! 0 = Some ("r0", r0) /\ items !! 1 = Some ("r1", r1) /\
    pressTarget r0 = Some "/chatroom/r0" /\
    pressTarget r0 <> pressTarget r1.
Proof.
  do 4 eexists.
  split; [reflexivity|]. split; [reflexivity|].
  split; [reflexivity|]. split; [reflexivity|].
  destruct (rows_navigate_by_key hostUTC lightColors loadedWorld
              _ _ 0 1 "r0" "r1" _ _ eq_refl eq_refl eq_refl eq_refl eq_refl)
    as [Hp Hiff].
  split; [exact Hp|]. intros Heq. apply Hiff in Heq. discriminate Heq.
Defined.

(** ** What the text of a timestamp leaves out *)

(** The text shows neither the year nor the seconds: two timestamps whose
    local times fall in the same minute of the same day of the same month
    are rendered alike, whatever their years, seconds and milliseconds. *)
Theorem formatTimestamp_hides_year_and_seconds
    host ts1 ts2 t1 t2 y1 y2 m d h mi sec1 sec2 ms1 ms2 :
  ts1 <> "" -> ts2 <> "" ->
  Date.parse host ts1 = Some t1 ->
  Date.parse host ts2 = Some t2 ->
  Date.valid_civil y1 m d h mi sec1 ms1 ->
  Date.valid_civil y2 m d h mi sec2 ms2 ->
  Date.LocalTime host t1 = Date.civil_time y1 m d h mi sec1 ms1 ->
  Date.LocalTime host t2 = Date.civil_time y2 m d h mi sec2 ms2 ->
  formatTimestamp host (Str ts1) = formatTimestamp host (Str ts2).
Proof.
  intros Hne1 Hne2 Hp1 Hp2 Hv1 Hv2 Hl1 Hl2.
  rewrite (formatTimestamp_valid host ts1 t1 Hne1 Hp1),
    (formatTimestamp_valid host ts2 t2 Hne2 Hp2).
  rewrite (format_local_fields host t1 y1 m d h mi sec1 ms1 Hv1 Hl1),
    (format_local_fields host t2 y2 m d h mi sec2 ms2 Hv2 Hl2).
  reflexivity.
Qed.

Lemma formatTimestamp_hides_year_and_seconds_witness :
  formatTimestamp hostUTC (Str "2024-01-05T15:45:00Z") =
    formatTimestamp hostUTC (Str "1999-01-05T15:45:59.999Z") /\
  formatTimestamp hostUTC (Str "1999-01-05T15:45:59.999Z")
    = Normal "Jan 5, 3:45 PM".
Proof.
  split; [|reflexivity].
  apply (formatTimestamp_hides_year_and_seconds hostUTC
           "2024-01-05T15:45:00Z" "1999-01-05T15:45:59.999Z"
           (Date.civil_time 2024 1 5 15 45 0 0)
           (Date.civil_time 1999 1 5 15 45 59 999)
           2024 1999 1 5 15 45 0 59 0 999);
    try reflexivity; try discriminate;
    unfold Date.valid_civil; by vm_compute.
Defined.
